(** * The calories plugin of Jarvis (jarviscli/plugins/calories_macros.py)

    A shallow embedding of the plugin that asks for gender, age, height,
    weight, activity level and goal, and reports a recommended daily calorie
    intake, together with the properties of it that the specification
    states.

    The plugin is Python.  Integers are unbounded ([Z]); the float
    arithmetic of [_calc_rmr] and [_calc_tdee] is IEEE 754 binary64 with
    round to nearest, ties to even, which the standard library specifies
    over [Z] in [SpecFloat]; exceptions are the [Raise] results of an error
    monad; the conversation with the user is a console that holds the lines
    still to be typed and the log of what was shown. *)

From Stdlib Require Import ZArith QArith Qpower Qabs String Ascii List Lia Bool.
From Stdlib Require Import SpecFloat DecimalString.
From stdpp Require Import gmap.
Import ListNotations.

#[local] Open Scope string_scope.
#[local] Open Scope Z_scope.

(** ** The Python runtime that the plugin relies on *)

Module Py.

(** The exceptions that the plugin can meet.  [ValueOutOfRangeError] is the
    class that the plugin declares itself; the others are builtins. *)
Inductive exn : Set :=
| ValueError
| TypeError
| OverflowError
| ValueOutOfRangeError.

Inductive result (A : Type) : Type :=
| Ok (a : A)
| Raise (e : exn).
Arguments Ok {A} a.
Arguments Raise {A} e.

#[export] Instance result_ret : MRet result := fun _ a => Ok a.
#[export] Instance result_bind : MBind result := fun _ _ k c =>
  match c with
  | Ok a => k a
  | Raise e => Raise e
  end.

(** [try: body except classes: handler]. *)
Definition try_except {A} (body : result A) (caught : exn -> bool)
    (handler : result A) : result A :=
  match body with
  | Ok a => Ok a
  | Raise e => if caught e then handler else Raise e
  end.

(** *** Floats: binary64 *)

Definition prec : Z := 53.
Definition emax : Z := 1024.

Definition float : Set := spec_float.

(** [float(n)] for an int [n]: the nearest double, ties to even;
    [OverflowError] when that is beyond the largest double. *)
Definition float_of_int (n : Z) : result float :=
  match binary_normalize prec emax n 0 false with
  | S754_infinity _ => Raise OverflowError
  | f => Ok f
  end.

(** A decimal literal [num/den] with [num] and [den] below [2^53]: the
    parser yields the double nearest to the quotient, which is what the
    correctly rounded division of the two (exact) doubles gives. *)
Definition float_lit (num den : Z) : float :=
  SFdiv prec emax (binary_normalize prec emax num 0 false)
                  (binary_normalize prec emax den 0 false).

Definition float_mul : float -> float -> float := SFmul prec emax.
Definition float_add : float -> float -> float := SFadd prec emax.
Definition float_sub : float -> float -> float := SFsub prec emax.

(** The values that reach the arithmetic of the plugin. *)
Inductive value : Set :=
| VInt (n : Z)
| VFloat (f : float)
| VNone.

(** [x * y], [x + y] and [x - y]: int with int stays int, an int next to a float is
    converted first, [None] is no operand. *)
Definition mul (x y : value) : result value :=
  match x, y with
  | VInt a, VInt b => Ok (VInt (a * b))
  | VInt a, VFloat g => f ← float_of_int a; Ok (VFloat (float_mul f g))
  | VFloat f, VInt b => g ← float_of_int b; Ok (VFloat (float_mul f g))
  | VFloat f, VFloat g => Ok (VFloat (float_mul f g))
  | _, _ => Raise TypeError
  end.

Definition add (x y : value) : result value :=
  match x, y with
  | VInt a, VInt b => Ok (VInt (a + b))
  | VInt a, VFloat g => f ← float_of_int a; Ok (VFloat (float_add f g))
  | VFloat f, VInt b => g ← float_of_int b; Ok (VFloat (float_add f g))
  | VFloat f, VFloat g => Ok (VFloat (float_add f g))
  | _, _ => Raise TypeError
  end.

Definition sub (x y : value) : result value :=
  match x, y with
  | VInt a, VInt b => Ok (VInt (a - b))
  | VInt a, VFloat g => f ← float_of_int a; Ok (VFloat (float_sub f g))
  | VFloat f, VInt b => g ← float_of_int b; Ok (VFloat (float_sub f g))
  | VFloat f, VFloat g => Ok (VFloat (float_sub f g))
  | _, _ => Raise TypeError
  end.

(** The integer nearest to [(-1)^s * m * 2^e], ties to the even one. *)
Definition round_half_even (s : bool) (m : positive) (e : Z) : Z :=
  let n :=
    if 0 <=? e then Z.pos m * 2 ^ e
    else
      let d := 2 ^ (- e) in
      let q := Z.pos m / d in
      match 2 * (Z.pos m mod d) ?= d with
      | Lt => q
      | Gt => q + 1
      | Eq => if Z.even q then q else q + 1
      end in
  if s then - n else n.

(** [round(x)] with one argument: an int. *)
Definition round (x : value) : result Z :=
  match x with
  | VInt n => Ok n
  | VFloat (S754_zero _) => Ok 0
  | VFloat (S754_finite s m e) => Ok (round_half_even s m e)
  | VFloat (S754_infinity _) => Raise OverflowError
  | VFloat S754_nan => Raise ValueError
  | VNone => Raise TypeError
  end.

(** [d.get(k)]: the entry, or [None]. *)
Definition dict_get (d : gmap Z float) (k : Z) : value :=
  match d !! k with
  | Some f => VFloat f
  | None => VNone
  end.

(** [str(n)] for an int. *)
Definition str (n : Z) : string := NilZero.string_of_int (Z.to_int n).

(** *** Strings *)

Definition is_space (c : ascii) : bool :=
  let n := nat_of_ascii c in
  ((9 <=? n) && (n <=? 13))%nat || (n =? 32)%nat.

Definition digit_of (c : ascii) : option Z :=
  let n := nat_of_ascii c in
  if ((48 <=? n) && (n <=? 57))%nat then Some (Z.of_nat n - 48) else None.

Fixpoint lstrip (s : string) : string :=
  match s with
  | String c s' => if is_space c then lstrip s' else s
  | EmptyString => s
  end.

(** Blanks at the end are dropped: [None] stands for a tail of blanks. *)
Fixpoint rstrip_aux (s : string) : option string :=
  match s with
  | EmptyString => None
  | String c s' =>
      match rstrip_aux s' with
      | Some t => Some (String c t)
      | None => if is_space c then None else Some (String c EmptyString)
      end
  end.

Definition strip (s : string) : string :=
  match rstrip_aux (lstrip s) with
  | Some t => t
  | None => EmptyString
  end.

(** Digits, where an underscore may stand between two digits.  [acc] is the
    number read so far and [after_digit] says that the last character was
    a digit. *)
Fixpoint digits (s : string) (acc : Z) (after_digit : bool) : option Z :=
  match s with
  | EmptyString => if after_digit then Some acc else None
  | String c s' =>
      match digit_of c with
      | Some d => digits s' (10 * acc + d) true
      | None =>
          if Ascii.eqb c "_" && after_digit then digits s' acc false
          else None
      end
  end.

(** [int(s)] for a string in base ten: blanks around, a sign, digits.
    [None] is [ValueError].  Only ASCII blanks and digits are read. *)
Definition parse_int (s : string) : option Z :=
  match strip s with
  | String "-" t => option_map Z.opp (digits t 0 false)
  | String "+" t => digits t 0 false
  | t => digits t 0 false
  end.

Definition int (s : string) : result Z :=
  match parse_int s with
  | Some n => Ok n
  | None => Raise ValueError
  end.

(** [s.upper()] on ASCII letters. *)
Definition upper_ascii (c : ascii) : ascii :=
  let n := nat_of_ascii c in
  if ((97 <=? n) && (n <=? 122))%nat then ascii_of_nat (n - 32) else c.

Fixpoint upper (s : string) : string :=
  match s with
  | EmptyString => EmptyString
  | String c s' => String (upper_ascii c) (upper s')
  end.

End Py.
Import Py.

(** colorama's [Fore]: ANSI escape sequences. *)
Module Fore.
Definition ESC : string := String (ascii_of_nat 27) "[".
Definition RED : string := ESC ++ "31m".
Definition YELLOW : string := ESC ++ "33m".
Definition CYAN : string := ESC ++ "36m".
Definition RESET : string := ESC ++ "39m".
End Fore.

Definition nl : string := String (ascii_of_nat 10) EmptyString.

(** ** The console of the assistant

    [jarvis.say] and [print] show a text, [jarvis.input] shows a prompt and
    hands over the next line that the user types.  A call that finds no line
    left is waiting for the user: [Awaits]. *)

Inductive event : Set :=
| Said (text : string)
| Asked (prompt : string)
| Printed (text : string).

Record console : Set := Console {
  typed : list string;
  shown : list event
}.

Inductive outcome (A : Type) : Type :=
| Returns (a : A) (c : console)
| Fails (e : exn) (c : console)
| Awaits (c : console).
Arguments Returns {A} a c.
Arguments Fails {A} e c.
Arguments Awaits {A} c.

Definition IO (A : Type) : Type := console -> outcome A.

#[export] Instance IO_ret : MRet IO := fun _ a c => Returns a c.
#[export] Instance IO_bind : MBind IO := fun _ _ k m c =>
  match m c with
  | Returns a c' => k a c'
  | Fails e c' => Fails e c'
  | Awaits c' => Awaits c'
  end.

Definition show (ev : event) : IO unit :=
  fun c => Returns tt (Console (typed c) (shown c ++ [ev])%list).

Definition jarvis_say (text : string) : IO unit := show (Said text).
Definition print (text : string) : IO unit := show (Printed text).

Definition jarvis_input (prompt : string) : IO string :=
  fun c =>
    let log := (shown c ++ [Asked prompt])%list in
    match typed c with
    | line :: rest => Returns line (Console rest log)
    | [] => Awaits (Console [] log)
    end.

(** The result of a computation that has no effect on the console. *)
Definition lift {A} (r : result A) : IO A :=
  fun c =>
    match r with
    | Ok a => Returns a c
    | Raise e => Fails e c
    end.

(** ** class CalorieCalculator *)

Record CalorieCalculator : Set := {
  _gender : string;
  _age : Z;
  _height : Z;
  _weight : Z;
  _activity_level : Z;
  _goal : Z
}.

(** [CalorieCalculator(gender, age, height, weight, activity_level, goal)]:
    [__init__] stores its six arguments. *)
Definition calculator (gender : string)
    (age height weight activity_level goal : Z) : CalorieCalculator :=
  {| _gender := gender; _age := age; _height := height; _weight := weight;
     _activity_level := activity_level; _goal := goal |}.

Definition WEIGHT_LOSS : Z := 1.
Definition WEIGHT_GAIN : Z := 3.

Definition _calc_rmr (self : CalorieCalculator) : result value :=
  let WEIGHT_FACTOR := VInt 10 in
  let HEIGHT_FACTOR := VFloat (float_lit 625 100) in
  let AGE_FACTOR := VInt (-5) in
  let MALE_CONSTANT := VInt 5 in
  let FEMALE_CONSTANT := VInt (-161) in
  let gender_constant :=
    if String.eqb (_gender self) "M" then MALE_CONSTANT else FEMALE_CONSTANT in
  w ← mul WEIGHT_FACTOR (VInt (_weight self));
  h ← mul HEIGHT_FACTOR (VInt (_height self));
  wh ← add w h;
  a ← mul AGE_FACTOR (VInt (_age self));
  wha ← add wh a;
  add wha gender_constant.

Definition ACTIVITY_FACTORS : gmap Z float :=
  {[ 1 := float_lit 12 10;       (* Little or no exercise *)
     2 := float_lit 1375 1000;   (* Light exercise 1-3 days a week *)
     3 := float_lit 155 100;     (* Moderate exercise 4-5 days a week *)
     4 := float_lit 1725 1000    (* Hard exercise every day *) ]}.

Definition _calc_tdee (self : CalorieCalculator) (rmr : value) : result Z :=
  product ← mul rmr (dict_get ACTIVITY_FACTORS (_activity_level self));
  round product.

Definition _calc_daily_calorie_intake (self : CalorieCalculator) (tdee : Z) : Z :=
  let DAILY_CALORIC_DEFICIT := 500 in
  let DAILY_CALORIC_SURPLUS := 500 in
  if _goal self =? WEIGHT_LOSS then tdee - DAILY_CALORIC_DEFICIT
  else if _goal self =? WEIGHT_GAIN then tdee + DAILY_CALORIC_SURPLUS
  else tdee.

Definition calc_daily_calorie_intake (self : CalorieCalculator) : result Z :=
  rmr ← _calc_rmr self;
  tdee ← _calc_tdee self rmr;
  Ok (_calc_daily_calorie_intake self tdee).

Definition caution_male : string :=
  Fore.CYAN ++ nl ++ "The calculated daily calorie intake was "
  ++ "below the suggested of 1500 cal for males. We suggest you to "
  ++ "consult a nutrition expert to help you achieve your goal!".

Definition caution_female : string :=
  Fore.CYAN ++ nl ++ "The calculated daily calorie intake was "
  ++ "below the suggested of 1200 cal for females. We suggest you "
  ++ "to consult a nutrition expert to help you achieve your goal!".

Definition phrase_loss : string :=
  nl ++ "The recommended daily calorie intake to achieve a "
  ++ "weight loss of ~0.5kg/week is: ".

Definition phrase_gain : string :=
  nl ++ "The recommended daily calorie intake to achieve a "
  ++ "weight gain of ~0.5kg/week is: ".

Definition phrase_maintain : string :=
  nl ++ "The recommended daily calorie intake to maintain "
  ++ "your current weight is: ".

(** [f'{phrase}{Fore.YELLOW}{cal_intake}']. *)
Definition recommendation (phrase : string) (cal_intake : Z) : string :=
  phrase ++ Fore.YELLOW ++ str cal_intake.

Definition display_calorie_results (self : CalorieCalculator) (cal_intake : Z)
    : IO unit :=
  let MIN_SUGGESTED_MALE_CAL_INTAKE := 1500 in
  let MIN_SUGGESTED_FEMALE_CAL_INTAKE := 1200 in
  if String.eqb (_gender self) "M" && (cal_intake <? MIN_SUGGESTED_MALE_CAL_INTAKE)
  then jarvis_say caution_male
  else if String.eqb (_gender self) "F"
          && (cal_intake <? MIN_SUGGESTED_FEMALE_CAL_INTAKE)
  then jarvis_say caution_female
  else if _goal self =? WEIGHT_LOSS
  then jarvis_say (recommendation phrase_loss cal_intake)
  else if _goal self =? WEIGHT_GAIN
  then jarvis_say (recommendation phrase_gain cal_intake)
  else jarvis_say (recommendation phrase_maintain cal_intake).

(** ** class CaloriesMacrosPlugin *)

Definition yellow (content : string) : string :=
  Fore.YELLOW ++ content ++ Fore.RESET.

Definition red (content : string) : string :=
  Fore.RED ++ content ++ Fore.RESET.

Definition display_welcome_message : IO unit :=
  jarvis_say (yellow (nl ++ "Hello! In order to calculate your daily calorie intake "
                      ++ "i will need some information about you. Lets start...")).

Definition display_activity_levels : IO unit :=
  jarvis_say (yellow (nl ++ "Activity levels:"));;
  jarvis_say (yellow "[1]" ++ " Little or no exercise");;
  jarvis_say (yellow "[2]" ++ " Light exercise 1-3 days a week");;
  jarvis_say (yellow "[3]" ++ " Moderate exercise 4-5 days a week");;
  jarvis_say (yellow "[4]" ++ " Hard exercise every day" ++ nl).

Definition display_goals : IO unit :=
  jarvis_say (yellow (nl ++ "Goals:"));;
  jarvis_say (yellow "[1]" ++ " Lose weight");;
  jarvis_say (yellow "[2]" ++ " Maintain weight");;
  jarvis_say (yellow "[3]" ++ " Gain weight" ++ nl).

Definition validate_gender (gender : string) : bool :=
  String.eqb (upper gender) "M" || String.eqb (upper gender) "F".

(** [while True:] of [read_gender], one turn for each line that the user
    types: [lines] are the lines to come and [log] is what was shown. *)
Fixpoint read_gender_loop (input_message error_message : string)
    (lines : list string) (log : list event) : outcome string :=
  let log := (log ++ [Asked input_message])%list in
  match lines with
  | [] => Awaits (Console [] log)
  | gender :: rest =>
      if validate_gender gender then Returns (upper gender) (Console rest log)
      else read_gender_loop input_message error_message rest
             (log ++ [Printed (red error_message)])%list
  end.

Definition read_gender (input_message error_message : string) : IO string :=
  fun c => read_gender_loop input_message error_message (typed c) (shown c).

(** The body of the [try] of [validate_input]. *)
Definition validate_input_try (input : string) (bool_expression : Z -> bool)
    : result bool :=
  input ← int input;
  if bool_expression input then Raise ValueOutOfRangeError else Ok true.

(** [except (ValueError, ValueOutOfRangeError)]. *)
Definition validation_errors (e : exn) : bool :=
  match e with
  | ValueError | ValueOutOfRangeError => true
  | _ => false
  end.

Definition validate_input (input : string) (bool_expression : Z -> bool)
    : result bool :=
  try_except (validate_input_try input bool_expression)
    validation_errors (Ok false).

(** [while True:] of [read_input], one turn for each line typed. *)
Fixpoint read_input_loop (input_message : string) (bool_expression : Z -> bool)
    (error_message : string) (lines : list string) (log : list event)
    : outcome Z :=
  let log := (log ++ [Asked input_message])%list in
  match lines with
  | [] => Awaits (Console [] log)
  | input :: rest =>
      match validate_input input bool_expression with
      | Ok true => lift (int input) (Console rest log)
      | Ok false =>
          read_input_loop input_message bool_expression error_message rest
            (log ++ [Printed (red error_message)])%list
      | Raise e => Fails e (Console rest log)
      end
  end.

Definition read_input (input_message : string) (bool_expression : Z -> bool)
    (error_message : string) : IO Z :=
  fun c =>
    read_input_loop input_message bool_expression error_message
      (typed c) (shown c).

(** The range tests of the five numeric fields, as [__call__] writes them:
    each is true on the values to turn down. *)
Definition age_out_of_range (age : Z) : bool := age <? 14.
Definition height_out_of_range (height : Z) : bool := height <=? 0.
Definition weight_out_of_range (weight : Z) : bool := weight <=? 0.
Definition activity_level_out_of_range (activity_level : Z) : bool :=
  negb ((1 <=? activity_level) && (activity_level <=? 4)).
Definition goal_out_of_range (goal : Z) : bool :=
  negb ((1 <=? goal) && (goal <=? 3)).

(** The last three statements of [__call__]: build the calculator, compute,
    display. *)
Definition report (gender : string) (age height weight activity_level goal : Z)
    : IO unit :=
  let calorie_calculator :=
    calculator gender age height weight activity_level goal in
  daily_calorie_intake ← lift (calc_daily_calorie_intake calorie_calculator);
  display_calorie_results calorie_calculator daily_calorie_intake.

Definition __call__ : IO unit :=
  display_welcome_message;;
  gender ← read_gender "Gender (M/F): "
    "Oops! That was not a valid gender. Please try again (M/F)...";
  age ← read_input "Age: " age_out_of_range
    ("We suggest you to consult a nutrition expert if you are "
     ++ "under 14 years old."
     ++ nl ++ "If you made a mistake while entering your age, try again...");
  height ← read_input "Height (cm): " height_out_of_range
    "Oops! That was not a valid height. Try again...";
  weight ← read_input "Weight (kg): " weight_out_of_range
    "Oops! That was not a valid weight. Try again...";
  display_activity_levels;;
  activity_level ← read_input "Choose your activity level (1-4): "
    activity_level_out_of_range "Oops! Invalid input. Try again (1-4)...";
  display_goals;;
  goal ← read_input "Choose your goal (1-3): " goal_out_of_range
    "Oops! Invalid input. Try again (1-3)...";
  report gender age height weight activity_level goal.

(** ** The words of the specification

    The formulas as the specification writes them, in the arithmetic of the
    plugin, to be compared with what the methods compute. *)

(** [10*weight + 6.25*height - 5*age + constant]. *)
Definition spec_rmr (constant age height weight : Z) : result value :=
  w ← mul (VInt 10) (VInt weight);
  h ← mul (VFloat (float_lit 625 100)) (VInt height);
  wh ← add w h;
  a ← mul (VInt 5) (VInt age);
  wha ← sub wh a;
  add wha (VInt constant).

(** Level 1: 1.2, level 2: 1.375, level 3: 1.55, level 4: 1.725. *)
Definition spec_activity_factor (activity_level : Z) : float :=
  if activity_level =? 1 then float_lit 12 10
  else if activity_level =? 2 then float_lit 1375 1000
  else if activity_level =? 3 then float_lit 155 100
  else float_lit 1725 1000.


(** The phrase of the goal: loss for 1, gain for 3, maintain otherwise. *)
Definition spec_goal_phrase (goal : Z) : string :=
  if goal =? 1 then phrase_loss
  else if goal =? 3 then phrase_gain
  else phrase_maintain.

(** The constant of the formula: 5 for "M", -161 otherwise. *)
Definition gender_constant_of (gender : string) : Z :=
  if String.eqb gender "M" then 5 else -161.

(** The rational number that a double stands for (0 for what is no number). *)
Definition SF2Q (f : float) : Q :=
  match f with
  | S754_finite s m e => inject_Z (cond_Zopp s (Z.pos m)) * 2 ^ e
  | _ => 0
  end.

(** The double nearest to [z/4]; it is [z/4] itself when [|z| < 2^53]
    ([SF2Q_quarter] below). *)
Definition quarter (z : Z) : float := binary_normalize prec emax z (-2) false.

(** A normal double: 53 bits of mantissa, exponent in range. *)
Definition is_norm (m : positive) (e : Z) : Prop :=
  Z.pos (digits2_pos m) = 53 /\ -1074 <= e <= 971.

(** The relation of the two formulas: both RMRs are computed, and the one
    for the male calculator is the one for the female calculator plus 166. *)
Definition gap_166 (male female : CalorieCalculator) : Prop :=
  exists x y : float,
    _calc_rmr male = Ok (VFloat x) /\ _calc_rmr female = Ok (VFloat y) /\
    (SF2Q x == SF2Q y + 166)%Q.

(** The console after one more text was said. *)
Definition after_saying (c : console) (text : string) : console :=
  Console (typed c) (shown c ++ [Said text])%list.

(** A whole conversation: the lines that the user will type, nothing shown
    yet. *)
Definition run (lines : list string) : outcome unit := __call__ (Console lines []).

(** ** Words for the properties of the collector and of the arithmetic *)

(** A float that is a number: a zero or a finite double. *)
Definition is_number (f : float) : bool :=
  match f with
  | S754_zero _ | S754_finite _ _ _ => true
  | _ => false
  end.

(** What is shown for lines that are turned down: for each the prompt and
    then the error. *)
Fixpoint rejections (input_message error_message : string) (bad : list string)
    : list event :=
  match bad with
  | [] => []
  | _ :: bad' =>
      Asked input_message :: Printed (red error_message)
      :: rejections input_message error_message bad'
  end.

(** The prompts and the errors of a log, in order. *)
Definition prompts (log : list event) : list string :=
  List.flat_map (fun ev => match ev with Asked p => [p] | _ => [] end) log.

Definition errors (log : list event) : list string :=
  List.flat_map (fun ev => match ev with Printed t => [t] | _ => [] end) log.

(** The factor of an activity level as the decimal that the source writes. *)
Definition decimal_factor (activity_level : Z) : Q :=
  if activity_level =? 1 then 12 # 10
  else if activity_level =? 2 then 1375 # 1000
  else if activity_level =? 3 then 155 # 100
  else 1725 # 1000.

(** * Properties *)

(** ** Binary64 arithmetic that is exact

    The doubles of [SpecFloat] are pairs of a mantissa and an exponent.  The
    numbers that the calculator meets on every input of sensible size are
    multiples of 1/4 below [2^51]: they are doubles, and sums and products of
    them are computed without any rounding. *)

Lemma digits2_pos_size (p : positive) : digits2_pos p = Pos.size p.
Proof. induction p; simpl; congruence. Qed.

Lemma digits2_log2 (p : positive) :
  Z.pos (digits2_pos p) = Z.log2 (Z.pos p) + 1.
Proof.
  rewrite digits2_pos_size.
  destruct p; simpl; rewrite ?Pos2Z.inj_succ; lia.
Qed.

Lemma digits2_shift (m : positive) (k : Z) (M : positive) :
  0 <= k -> Z.pos M = Z.pos m * 2 ^ k ->
  Z.pos (digits2_pos M) = Z.pos (digits2_pos m) + k.
Proof.
  intros Hk HM. rewrite !digits2_log2, HM, Z.log2_mul_pow2; lia.
Qed.

Lemma iter_xO (m d : positive) :
  Z.pos (Pos.iter xO m d) = Z.pos m * 2 ^ Z.pos d.
Proof.
  rewrite (Pos.iter_swap_gen _ _ Z.pos xO (Z.mul 2)) by reflexivity.
  change (Pos.iter (Z.mul 2) (Z.pos m) d) with (Z.shiftl (Z.pos m) (Z.pos d)).
  apply Z.shiftl_mul_pow2. lia.
Qed.

Lemma iter_pos_iter {A} (f : A -> A) (p : positive) (x : A) :
  SpecFloat.iter_pos f p x = Pos.iter f x p.
Proof.
  revert x. induction p as [p IH | p IH |]; intros x; simpl.
  - rewrite !IH, <- !Pos.iter_swap. reflexivity.
  - rewrite !IH. reflexivity.
  - reflexivity.
Qed.

Lemma shr_1_exact (p : positive) : forall m M : positive,
  Z.pos M = Z.pos m * 2 ^ Z.pos p ->
  Pos.iter shr_1 (Build_shr_record (Z.pos M) false false) p
  = Build_shr_record (Z.pos m) false false.
Proof.
  induction p as [| p IH] using Pos.peano_ind; intros m M HM.
  - simpl. assert (M = m~0)%positive as -> by lia. reflexivity.
  - rewrite Pos.iter_succ, (IH (m~0)%positive).
    + reflexivity.
    + rewrite HM, Pos2Z.inj_succ, Z.pow_succ_r; lia.
Qed.

Lemma fexp_norm (e : Z) : -1074 <= e -> fexp prec emax (53 + e) = e.
Proof. unfold fexp, emin, prec, emax. lia. Qed.

Section Exact.

(** A normal double [(m, e)], and what rounds to it. *)
Variables (m : positive) (e : Z).
Hypothesis Hnorm : is_norm m e.

Lemma round_aux_exact (s : bool) (M : positive) (E : Z) :
  E <= e -> Z.pos M = Z.pos m * 2 ^ (e - E) ->
  binary_round_aux prec emax s (Z.pos M) E loc_Exact = S754_finite s m e.
Proof.
  destruct Hnorm as [Hd He]. intros HE HM.
  assert (HdM : Z.pos (digits2_pos M) + E = 53 + e).
  { rewrite (digits2_shift m (e - E) M); lia. }
  unfold binary_round_aux, shr_fexp. simpl Zdigits2.
  rewrite HdM, fexp_norm by lia.
  assert (Hshr : shr (shr_record_of_loc (Z.pos M) loc_Exact) E (e - E)
                 = (Build_shr_record (Z.pos m) false false, e)).
  { unfold shr. simpl shr_record_of_loc.
    destruct (e - E) as [| p | p] eqn:Hp; try lia.
    - f_equal; [| lia]. f_equal. rewrite Z.pow_0_r in HM. lia.
    - rewrite iter_pos_iter, (shr_1_exact p m M HM). f_equal. lia. }
  rewrite Hshr. simpl shr_m. simpl loc_of_shr_record. simpl round_nearest_even.
  simpl Zdigits2. rewrite Hd, fexp_norm by lia.
  rewrite Z.sub_diag. simpl.
  destruct (Z.leb_spec e (emax - prec)); [reflexivity | unfold emax, prec in *; lia].
Qed.

Lemma round_exact (s : bool) (M : positive) (E : Z) :
  (E <= e /\ Z.pos M = Z.pos m * 2 ^ (e - E)) \/
  (e <= E /\ Z.pos m = Z.pos M * 2 ^ (E - e)) ->
  binary_round prec emax s M E = S754_finite s m e.
Proof.
  intros Hv. pose proof Hnorm as [Hd He].
  assert (HdM : Z.pos (digits2_pos M) + E = 53 + e).
  { destruct Hv as [[HE HM] | [HE HM]].
    - rewrite (digits2_shift m (e - E) M); lia.
    - rewrite (digits2_shift M (E - e) m) in Hd; lia. }
  unfold binary_round. rewrite HdM, fexp_norm by lia.
  unfold shl_align.
  destruct (e - E) as [| p | p] eqn:Hp.
  - apply round_aux_exact; [lia |].
    assert (E = e) as -> by lia. rewrite Z.sub_diag, ?Z.pow_0_r in *.
    destruct Hv as [[_ HM] | [_ HM]]; lia.
  - destruct Hv as [[HE HM] | [HE HM]]; [| lia].
    apply round_aux_exact; [lia | rewrite Hp; assumption].
  - destruct Hv as [[HE HM] | [HE HM]]; [lia |].
    apply round_aux_exact; [lia |].
    rewrite iter_xO, HM, Z.sub_diag, Z.pow_0_r.
    replace (E - e) with (Z.pos p) by lia. lia.
Qed.

End Exact.

Lemma pow2_add (x y : Z) : 0 <= x -> 0 <= y -> 2 ^ (x + y) = 2 ^ x * 2 ^ y.
Proof. intros. apply Z.pow_add_r; assumption. Qed.

Lemma pow2_pos (x : Z) : 0 <= x -> 0 < 2 ^ x.
Proof. intros. apply Z.pow_pos_nonneg; lia. Qed.

Lemma log2_below (z : Z) : z <> 0 -> Z.abs z < 2 ^ 53 -> 0 <= Z.log2 (Z.abs z) <= 52.
Proof.
  intros Hz Hb. split; [apply Z.log2_nonneg |].
  assert (Z.log2 (Z.abs z) < 53); [| lia].
  apply Z.log2_lt_pow2; lia.
Qed.

(** A nonzero [z] below [2^53] in absolute value: [quarter z] is the normal
    double of mantissa [|z| * 2^(52 - log2 |z|)]. *)
Lemma quarter_finite (z : Z) :
  z <> 0 -> Z.abs z < 2 ^ 53 ->
  exists m : positive,
    is_norm m (Z.log2 (Z.abs z) - 54) /\
    Z.pos m = Z.abs z * 2 ^ (52 - Z.log2 (Z.abs z)) /\
    quarter z = S754_finite (z <? 0) m (Z.log2 (Z.abs z) - 54).
Proof.
  intros Hz Hb. pose proof (log2_below z Hz Hb) as Hl.
  set (l := Z.log2 (Z.abs z)) in *.
  pose proof (pow2_pos (52 - l) ltac:(lia)) as Hp.
  assert (Hm : Z.pos (Z.to_pos (Z.abs z * 2 ^ (52 - l))) = Z.abs z * 2 ^ (52 - l)).
  { apply Z2Pos.id. nia. }
  assert (Hz' : Z.pos (Z.to_pos (Z.abs z)) = Z.abs z) by (apply Z2Pos.id; lia).
  exists (Z.to_pos (Z.abs z * 2 ^ (52 - l))).
  assert (Hn : is_norm (Z.to_pos (Z.abs z * 2 ^ (52 - l))) (l - 54)).
  { split; [| lia].
    rewrite (digits2_shift (Z.to_pos (Z.abs z)) (52 - l)); [| lia | lia].
    rewrite digits2_log2, Hz'. fold l. lia. }
  split; [exact Hn |]. split; [exact Hm |].
  unfold quarter, binary_normalize.
  destruct z as [| p | p]; [lia | |]; simpl Z.ltb;
    apply round_exact; try exact Hn; right; (split; [lia |]);
    rewrite Hm; simpl Z.abs; f_equal; f_equal; lia.
Qed.

Lemma quarter_0 : quarter 0 = S754_zero false.
Proof. reflexivity. Qed.

(** Rounding [S * 2^E] when that is [z/4] with [z] below [2^53]: exact. *)
Lemma normalize_quarters (z S E : Z) :
  Z.abs z < 2 ^ 53 -> -1074 <= E ->
  (E <= -2 /\ S = z * 2 ^ (-2 - E)) \/ (-2 <= E /\ z = S * 2 ^ (E + 2)) ->
  binary_normalize prec emax S E false = quarter z.
Proof.
  intros Hb HE Hv.
  destruct (Z.eq_dec z 0) as [-> | Hz].
  { assert (S = 0) as ->; [| reflexivity].
    destruct Hv as [[H1 H2] | [H1 H2]]; [lia |].
    pose proof (pow2_pos (E + 2) ltac:(lia)). nia. }
  destruct (quarter_finite z Hz Hb) as (m & Hn & Hm & ->).
  pose proof (log2_below z Hz Hb) as Hl.
  set (l := Z.log2 (Z.abs z)) in *.
  assert (Hsign : (S <? 0) = (z <? 0) /\ S <> 0 /\
            ((E <= l - 54 /\ Z.abs S = Z.pos m * 2 ^ (l - 54 - E)) \/
             (l - 54 <= E /\ Z.pos m = Z.abs S * 2 ^ (E - (l - 54))))).
  { destruct Hv as [[H1 H2] | [H1 H2]].
    - pose proof (pow2_pos (-2 - E) ltac:(lia)) as Hp.
      assert (Habs : Z.abs S = Z.abs z * 2 ^ (-2 - E)).
      { rewrite H2, Z.abs_mul, (Z.abs_eq (2 ^ _)); lia. }
      split; [| split].
      + destruct (Z.ltb_spec S 0), (Z.ltb_spec z 0); try reflexivity; nia.
      + nia.
      + destruct (Z_le_gt_dec E (l - 54)); [left | right]; (split; [lia |]).
        * rewrite Habs, Hm, <- Z.mul_assoc, <- pow2_add by lia.
          f_equal; f_equal; lia.
        * rewrite Habs, Hm, <- Z.mul_assoc, <- pow2_add by lia.
          f_equal; f_equal; lia.
    - pose proof (pow2_pos (E + 2) ltac:(lia)) as Hp.
      assert (Habs : Z.abs z = Z.abs S * 2 ^ (E + 2)).
      { rewrite H2, Z.abs_mul, (Z.abs_eq (2 ^ _)); lia. }
      split; [| split].
      + destruct (Z.ltb_spec S 0), (Z.ltb_spec z 0); try reflexivity; nia.
      + nia.
      + right. split; [lia |].
        rewrite Hm, Habs, <- Z.mul_assoc, <- pow2_add by lia.
        f_equal; f_equal; lia. }
  destruct Hsign as (Hs & HS & Hc). rewrite <- Hs.
  unfold binary_normalize.
  destruct S as [| P | P]; [lia | |]; simpl Z.ltb; simpl Z.abs in Hc;
    apply round_exact; assumption.
Qed.

Lemma float_of_int_exact (k : Z) :
  Z.abs k < 2 ^ 51 -> float_of_int k = Ok (quarter (4 * k)).
Proof.
  intros Hk. unfold float_of_int.
  rewrite (normalize_quarters (4 * k) k 0); [| lia | lia | right; lia].
  destruct (Z.eq_dec k 0) as [-> | Hz]; [reflexivity |].
  destruct (quarter_finite (4 * k)) as (m & _ & _ & ->); [lia | lia | reflexivity].
Qed.

Lemma shl_align_fst (m : positive) (e ez : Z) :
  ez <= e -> Z.pos (fst (shl_align m e ez)) = Z.pos m * 2 ^ (e - ez).
Proof.
  intros H. unfold shl_align.
  destruct (ez - e) as [| p | p] eqn:Hp; simpl fst.
  - replace (e - ez) with 0 by lia. lia.
  - lia.
  - rewrite iter_xO. f_equal; f_equal; lia.
Qed.

Lemma cond_Zopp_quarters (z : Z) (m : positive) (k : Z) :
  Z.pos m = Z.abs z * k -> cond_Zopp (z <? 0) (Z.pos m) = z * k.
Proof.
  intros ->. unfold cond_Zopp. destruct (Z.ltb_spec z 0); lia.
Qed.

Lemma quarter_add (a b : Z) :
  Z.abs a < 2 ^ 53 -> Z.abs b < 2 ^ 53 -> Z.abs (a + b) < 2 ^ 53 ->
  float_add (quarter a) (quarter b) = quarter (a + b).
Proof.
  intros Ha Hb Hab.
  destruct (Z.eq_dec a 0) as [-> | Na].
  { destruct (Z.eq_dec b 0) as [-> | Nb]; [reflexivity |]. rewrite Z.add_0_l.
    destruct (quarter_finite b Nb Hb) as (m & _ & _ & ->). reflexivity. }
  destruct (Z.eq_dec b 0) as [-> | Nb].
  { rewrite Z.add_0_r.
    destruct (quarter_finite a Na Ha) as (m & _ & _ & ->). reflexivity. }
  destruct (quarter_finite a Na Ha) as (ma & Hna & Hma & Ea).
  destruct (quarter_finite b Nb Hb) as (mb & Hnb & Hmb & Eb).
  pose proof (log2_below a Na Ha). pose proof (log2_below b Nb Hb).
  rewrite Ea, Eb. unfold float_add, SFadd.
  set (ea := Z.log2 (Z.abs a) - 54) in *.
  set (eb := Z.log2 (Z.abs b) - 54) in *.
  set (ez := Z.min ea eb).
  assert (Hez : ez <= ea /\ ez <= eb /\ -1074 <= ez <= -2) by lia.
  apply normalize_quarters; [assumption | lia | left; split; [lia |]].
  rewrite Z.mul_add_distr_r. f_equal.
  - apply cond_Zopp_quarters. rewrite shl_align_fst, Hma by lia.
    rewrite <- Z.mul_assoc, <- pow2_add by lia. f_equal; f_equal; lia.
  - apply cond_Zopp_quarters. rewrite shl_align_fst, Hmb by lia.
    rewrite <- Z.mul_assoc, <- pow2_add by lia. f_equal; f_equal; lia.
Qed.

Lemma float_lit_6_25 :
  float_lit 625 100 = S754_finite false (Z.to_pos (25 * 2 ^ 48)) (-50).
Proof. vm_compute. reflexivity. Qed.

Lemma quarter_mul_6_25 (h : Z) :
  Z.abs (25 * h) < 2 ^ 53 ->
  float_mul (float_lit 625 100) (quarter (4 * h)) = quarter (25 * h).
Proof.
  intros Hb. rewrite float_lit_6_25.
  destruct (Z.eq_dec h 0) as [-> | Hh]; [reflexivity |].
  destruct (quarter_finite (4 * h)) as (m4 & Hn4 & Hm4 & ->); [lia | lia |].
  destruct (quarter_finite (25 * h)) as (m & Hn & Hm & ->); [lia | lia |].
  pose proof (log2_below (4 * h) ltac:(lia) ltac:(lia)) as Hl4.
  pose proof (log2_below (25 * h) ltac:(lia) ltac:(lia)) as Hl.
  assert (Hmono : Z.log2 (Z.abs (4 * h)) <= Z.log2 (Z.abs (25 * h))).
  { apply Z.log2_le_mono. lia. }
  set (l4 := Z.log2 (Z.abs (4 * h))) in *.
  set (l := Z.log2 (Z.abs (25 * h))) in *.
  unfold float_mul, SFmul. simpl xorb.
  replace (4 * h <? 0) with (25 * h <? 0)
    by (destruct (Z.ltb_spec (25 * h) 0), (Z.ltb_spec (4 * h) 0); lia).
  apply round_aux_exact; [assumption | lia |].
  rewrite Pos2Z.inj_mul, Hm4, Hm.
  replace (Z.pos (Z.to_pos (25 * 2 ^ 48))) with (25 * 2 ^ 48) by reflexivity.
  replace (l - 54 - (-50 + (l4 - 54))) with (l - l4 + 50) by lia.
  assert (Hsplit : 2 ^ (52 - l) * 2 ^ (l - l4 + 50) = 2 ^ 48 * 4 * 2 ^ (52 - l4)).
  { change 4 with (2 ^ 2). rewrite <- !pow2_add by lia. f_equal. lia. }
  rewrite <- (Z.mul_assoc (Z.abs (25 * h))), Hsplit.
  replace (Z.abs (4 * h)) with (4 * Z.abs h) by lia.
  replace (Z.abs (25 * h)) with (25 * Z.abs h) by lia.
  ring.
Qed.

Lemma Qdiv_inject (A B C : Z) (D : positive) :
  0 < B -> A * Z.pos D = C * B -> (inject_Z A * / inject_Z B == C # D)%Q.
Proof.
  intros HB H. destruct B as [| b | b]; try lia.
  change (inject_Z A * / inject_Z (Z.pos b))%Q with (inject_Z A / inject_Z (Z.pos b))%Q.
  rewrite <- Qmake_Qdiv. unfold Qeq. simpl. lia.
Qed.

(** The double [quarter z] has the value [z/4]. *)
Lemma SF2Q_quarter (z : Z) : Z.abs z < 2 ^ 53 -> (SF2Q (quarter z) == z # 4)%Q.
Proof.
  intros Hb. destruct (Z.eq_dec z 0) as [-> | Hz]; [reflexivity |].
  destruct (quarter_finite z Hz Hb) as (m & Hn & Hm & ->).
  pose proof (log2_below z Hz Hb) as Hl.
  set (l := Z.log2 (Z.abs z)) in *.
  unfold SF2Q. replace (l - 54) with (- (54 - l)) by lia.
  rewrite Qpower_opp.
  change (2%Q) with (inject_Z 2). rewrite <- Zpower_Qpower by lia.
  pose proof (pow2_pos (54 - l) ltac:(lia)).
  apply Qdiv_inject; [assumption |].
  rewrite (cond_Zopp_quarters z m _ Hm).
  replace (54 - l) with (2 + (52 - l)) by lia. rewrite pow2_add by lia.
  change (2 ^ 2) with 4. lia.
Qed.

Lemma calc_rmr_exact (self : CalorieCalculator) :
  Z.abs (_weight self) <= 2 ^ 45 ->
  Z.abs (_height self) <= 2 ^ 45 ->
  Z.abs (_age self) <= 2 ^ 45 ->
  _calc_rmr self
  = Ok (VFloat (quarter (40 * _weight self + 25 * _height self
                         - 20 * _age self
                         + 4 * gender_constant_of (_gender self)))).
Proof.
  intros Hw Hh Ha.
  assert (H45 : 2 ^ 45 = 35184372088832) by reflexivity.
  assert (H51 : 2 ^ 51 = 2251799813685248) by reflexivity.
  assert (H53 : 2 ^ 53 = 9007199254740992) by reflexivity.
  unfold _calc_rmr, gender_constant_of.
  destruct (String.eqb (_gender self) "M");
    cbn [mul add mbind result_bind];
    rewrite (float_of_int_exact (_height self)) by lia;
    cbn [mul add mbind result_bind];
    rewrite quarter_mul_6_25 by lia;
    rewrite (float_of_int_exact (10 * _weight self)) by lia;
    cbn [mul add mbind result_bind];
    rewrite quarter_add by lia;
    rewrite (float_of_int_exact (-5 * _age self)) by lia;
    cbn [mul add mbind result_bind];
    rewrite quarter_add by lia;
    rewrite float_of_int_exact by lia;
    cbn [mul add mbind result_bind];
    rewrite quarter_add by lia;
    do 3 f_equal; lia.
Qed.


(** ** The formula of the resting metabolic rate *)

Lemma round_aux_opp (s : bool) (mx ex : Z) (lx : location) :
  binary_round_aux prec emax (negb s) mx ex lx
  = SFopp (binary_round_aux prec emax s mx ex lx).
Proof.
  unfold binary_round_aux.
  destruct (shr_fexp prec emax mx ex lx) as [mrs e'].
  destruct (shr_fexp prec emax _ e' loc_Exact) as [mrs' e''].
  destruct (shr_m mrs'); [reflexivity | | reflexivity].
  destruct (e'' <=? emax - prec); reflexivity.
Qed.

Lemma round_opp (s : bool) (p : positive) (e : Z) :
  binary_round prec emax (negb s) p e = SFopp (binary_round prec emax s p e).
Proof.
  unfold binary_round. destruct (shl_align p e _) as [mz ez].
  apply round_aux_opp.
Qed.

Lemma SFopp_involutive (f : float) : SFopp (SFopp f) = f.
Proof. destruct f as [[] | [] | | [] m e]; reflexivity. Qed.

Lemma normalize_opp (n e : Z) :
  binary_normalize prec emax (- n) e false
  = match n with
    | 0 => S754_zero false
    | _ => SFopp (binary_normalize prec emax n e false)
    end.
Proof.
  destruct n as [| p | p]; [reflexivity | |].
  - apply (round_opp false).
  - change (binary_round prec emax false p e
            = SFopp (binary_round prec emax (negb false) p e)).
    rewrite round_opp, SFopp_involutive. reflexivity.
Qed.

Lemma cond_Zopp_negb (s : bool) (m : Z) : cond_Zopp (negb s) m = - cond_Zopp s m.
Proof. destruct s; simpl; lia. Qed.

Lemma SFadd_opp (f g : float) : float_add f (SFopp g) = float_sub f g.
Proof.
  unfold float_add, float_sub.
  destruct f as [[] | [] | | sf mf ef], g as [[] | [] | | sg mg eg];
    try reflexivity.
  simpl. rewrite cond_Zopp_negb, Z.add_opp_r. reflexivity.
Qed.

(** Adding [-n] is subtracting [n], also where the int has to become a
    float first.  For [n = 0] the two differ on the float [-0.0]:
    [-0.0 + 0] is [0.0] and [-0.0 - 0] is [-0.0]. *)
Lemma add_opp_int (x : value) (n : Z) :
  n <> 0 -> add x (VInt (- n)) = sub x (VInt n).
Proof.
  intros Hn.
  destruct x as [a | f |]; [ simpl; do 2 f_equal; lia | | reflexivity].
  unfold add, sub, float_of_int. rewrite normalize_opp.
  destruct n as [| p | p]; [lia | |].
  - destruct (binary_normalize prec emax (Z.pos p) 0 false) as [sg | sg | | sg mg eg];
      cbn [SFopp mbind result_bind]; try reflexivity;
      rewrite <- SFadd_opp; reflexivity.
  - destruct (binary_normalize prec emax (Z.neg p) 0 false) as [sg | sg | | sg mg eg];
      cbn [SFopp mbind result_bind]; try reflexivity;
      rewrite <- SFadd_opp; reflexivity.
Qed.

(** The sign of a zero is forgotten as soon as a nonzero constant is added. *)
Lemma add_sub_zero (x : value) (c : Z) :
  c = 5 \/ c = -161 ->
  (y ← add x (VInt 0); add y (VInt c)) = (y ← sub x (VInt 0); add y (VInt c)).
Proof.
  intros Hc.
  destruct x as [a | f |]; [| | reflexivity].
  - simpl. do 2 f_equal; lia.
  - destruct Hc as [-> | ->];
      destruct f as [[] | [] | | [] m e]; reflexivity.
Qed.

(** [_calc_rmr] computes the formula of the specification, on every input. *)
Lemma calc_rmr_formula (self : CalorieCalculator) :
  _calc_rmr self
  = spec_rmr (gender_constant_of (_gender self))
      (_age self) (_height self) (_weight self).
Proof.
  assert (Hc : gender_constant_of (_gender self) = 5
               \/ gender_constant_of (_gender self) = -161).
  { unfold gender_constant_of. destruct (String.eqb _ _); auto. }
  assert (Hg : (if String.eqb (_gender self) "M" then VInt 5 else VInt (-161))
               = VInt (gender_constant_of (_gender self))).
  { unfold gender_constant_of. destruct (String.eqb _ _); reflexivity. }
  unfold _calc_rmr, spec_rmr. rewrite Hg.
  destruct (mul (VInt 10) (VInt (_weight self))) as [w |]; [| reflexivity].
  cbn [mbind result_bind].
  destruct (mul (VFloat _) (VInt (_height self))) as [h |]; [| reflexivity].
  cbn [mbind result_bind].
  destruct (add w h) as [wh |]; [| reflexivity].
  cbn [mbind result_bind mul].
  destruct (Z.eq_dec (_age self) 0) as [-> | Ha].
  - apply add_sub_zero. exact Hc.
  - replace (-5 * _age self) with (- (5 * _age self)) by lia.
    rewrite add_opp_int by lia. reflexivity.
Qed.

(** ** The dict of activity factors *)

Lemma activity_factors_get (activity_level : Z) :
  1 <= activity_level <= 4 ->
  dict_get ACTIVITY_FACTORS activity_level = VFloat (spec_activity_factor activity_level).
Proof.
  intros H.
  assert (Hl : activity_level = 1 \/ activity_level = 2
               \/ activity_level = 3 \/ activity_level = 4) by lia.
  destruct Hl as [-> | [-> | [-> | ->]]]; vm_compute; reflexivity.
Qed.

Lemma activity_factors_miss (activity_level : Z) :
  ~ (1 <= activity_level <= 4) -> dict_get ACTIVITY_FACTORS activity_level = VNone.
Proof.
  intros H. unfold dict_get, ACTIVITY_FACTORS.
  rewrite !lookup_insert_ne, lookup_singleton_ne by lia. reflexivity.
Qed.

(** ** Validation *)

Lemma validate_input_eq (input : string) (bool_expression : Z -> bool) :
  validate_input input bool_expression
  = Ok (match parse_int input with
        | Some n => negb (bool_expression n)
        | None => false
        end).
Proof.
  unfold validate_input, validate_input_try, int.
  destruct (parse_int input) as [n |]; [| reflexivity].
  cbn [mbind result_bind]. destruct (bool_expression n); reflexivity.
Qed.

Lemma read_input_loop_returns (input_message : string)
    (bool_expression : Z -> bool) (error_message : string)
    (lines : list string) : forall (log : list event) (n : Z) (c : console),
  read_input_loop input_message bool_expression error_message lines log
  = Returns n c ->
  bool_expression n = false /\ exists line, In line lines /\ parse_int line = Some n.
Proof.
  induction lines as [| input rest IH]; intros log n c; simpl; [discriminate |].
  rewrite validate_input_eq. unfold int.
  destruct (parse_int input) as [k |] eqn:Hk.
  - destruct (bool_expression k) eqn:Hb; simpl.
    + intros H. destruct (IH _ _ _ H) as (? & line & ? & ?). eauto.
    + intros [= <- <-]. eauto.
  - intros H. destruct (IH _ _ _ H) as (? & line & ? & ?). eauto.
Qed.

Lemma read_input_loop_never_fails (input_message : string)
    (bool_expression : Z -> bool) (error_message : string)
    (lines : list string) : forall (log : list event) (e : exn) (c : console),
  read_input_loop input_message bool_expression error_message lines log
  <> Fails e c.
Proof.
  induction lines as [| input rest IH]; intros log e c; simpl; [discriminate |].
  rewrite validate_input_eq. unfold int.
  destruct (parse_int input) as [k |] eqn:Hk.
  - destruct (bool_expression k) eqn:Hb; simpl; [apply IH | discriminate].
  - apply IH.
Qed.

Lemma read_input_loop_progress (input_message : string)
    (bool_expression : Z -> bool) (error_message : string)
    (lines : list string) : forall (log : list event),
  (exists line, In line lines /\ validate_input line bool_expression = Ok true) ->
  exists n c,
    read_input_loop input_message bool_expression error_message lines log
    = Returns n c.
Proof.
  induction lines as [| input rest IH]; intros log (line & Hin & Hv);
    [destruct Hin |].
  simpl. destruct (validate_input input bool_expression) as [[] |] eqn:Hi.
  - rewrite validate_input_eq in Hi. unfold int.
    destruct (parse_int input) as [k |]; [simpl; eauto | discriminate].
  - apply IH. destruct Hin as [-> | Hin]; [congruence | eauto].
  - rewrite validate_input_eq in Hi. discriminate.
Qed.

(** The two loops are the [while True] of the source, written with
    [jarvis_input] and [print]. *)
Lemma read_input_unfold (input_message : string) (bool_expression : Z -> bool)
    (error_message : string) (c : console) :
  read_input input_message bool_expression error_message c
  = (input ← jarvis_input input_message;
     valid ← lift (validate_input input bool_expression);
     if valid : bool then lift (int input)
     else print (red error_message);;
          read_input input_message bool_expression error_message) c.
Proof.
  destruct c as [[| input rest] log]; [reflexivity |].
  unfold read_input, mbind, IO_bind, jarvis_input. simpl.
  destruct (validate_input input bool_expression) as [[] | e]; reflexivity.
Qed.

Lemma read_gender_unfold (input_message error_message : string) (c : console) :
  read_gender input_message error_message c
  = (gender ← jarvis_input input_message;
     if validate_gender gender then mret (upper gender)
     else print (red error_message);;
          read_gender input_message error_message) c.
Proof.
  destruct c as [[| gender rest] log]; [reflexivity |].
  unfold read_gender, mbind, IO_bind, jarvis_input. simpl.
  destruct (validate_gender gender); reflexivity.
Qed.

(** ** Rounding to an int *)

(** [round_half_even] of a positive double with a negative exponent: the
    result is within one half, and even on a tie. *)
Lemma round_half_even_nearest (m : positive) (e : Z) :
  e < 0 ->
  let n := round_half_even false m e in
  let d := 2 ^ (- e) in
  2 * Z.abs (Z.pos m - n * d) <= d /\
  (2 * Z.abs (Z.pos m - n * d) = d -> Z.even n = true).
Proof.
  intros He. unfold round_half_even.
  destruct (Z.leb_spec 0 e); [lia |].
  pose proof (pow2_pos (- e) ltac:(lia)) as Hd.
  set (d := 2 ^ (- e)) in *. cbv zeta.
  pose proof (Z.div_mod (Z.pos m) d ltac:(lia)) as Hdm.
  pose proof (Z.mod_pos_bound (Z.pos m) d Hd) as Hr.
  set (q := Z.pos m / d) in *. set (r := Z.pos m mod d) in *.
  destruct (Z.compare_spec (2 * r) d) as [Heq | Hlt | Hgt].
  - destruct (Z.even q) eqn:Hev.
    + split; [nia | intros _; exact Hev].
    + split; [nia | intros _].
      rewrite Z.even_add, Hev. reflexivity.
  - split; [nia | nia].
  - split; [nia | nia].
Qed.

(** ** The claims of the specification *)

Lemma calculator_eta (self : CalorieCalculator) :
  calculator (_gender self) (_age self) (_height self) (_weight self)
    (_activity_level self) (_goal self) = self.
Proof. destruct self; reflexivity. Qed.

Lemma string_eqb_true (a b : string) : a = b -> String.eqb a b = true.
Proof. apply String.eqb_eq. Qed.

Lemma string_eqb_false (a b : string) : a <> b -> String.eqb a b = false.
Proof. apply String.eqb_neq. Qed.

(** C1: [display_calorie_results] says the caution for males when the gender
    is "M" and the intake is below 1500, the caution for females when the
    gender is "F" and the intake is below 1200, and nothing else then: the
    cautions are fixed texts that do not hold the intake.  Otherwise it says
    one text, the phrase of the goal (loss for goal 1, gain for goal 3,
    maintain for the rest) followed by the intake.  The intake that
    [__call__] hands over is the result of [calc_daily_calorie_intake], the
    value after the goal adjustment: for a woman of 30 years, 160 cm and
    50 kg at level 1 who wants to lose weight the TDEE is 1427, above 1200,
    and the caution is said for the intake 927. *)
Theorem display_calorie_results_spec (self : CalorieCalculator)
    (cal_intake : Z) (c : console) :
  (_gender self = "M" /\ cal_intake < 1500 ->
   display_calorie_results self cal_intake c
   = Returns tt (after_saying c caution_male)) /\
  (_gender self = "F" /\ cal_intake < 1200 ->
   display_calorie_results self cal_intake c
   = Returns tt (after_saying c caution_female)) /\
  (~ (_gender self = "M" /\ cal_intake < 1500) ->
   ~ (_gender self = "F" /\ cal_intake < 1200) ->
   display_calorie_results self cal_intake c
   = Returns tt (after_saying c
       (spec_goal_phrase (_goal self) ++ Fore.YELLOW ++ str cal_intake)%string)) /\
  report (_gender self) (_age self) (_height self) (_weight self)
    (_activity_level self) (_goal self) c
  = match calc_daily_calorie_intake self with
    | Ok intake => display_calorie_results self intake c
    | Raise e => Fails e c
    end /\
  (rmr ← _calc_rmr (calculator "F" 30 160 50 1 1);
   _calc_tdee (calculator "F" 30 160 50 1 1) rmr) = Ok 1427 /\
  report "F" 30 160 50 1 1 c = Returns tt (after_saying c caution_female).
Proof.
  unfold display_calorie_results.
  split; [| split; [| split; [| split; [| split]]]].
  - intros [Hg Hc]. rewrite (string_eqb_true _ _ Hg).
    destruct (Z.ltb_spec cal_intake 1500); [reflexivity | lia].
  - intros [Hg Hc].
    rewrite string_eqb_false by (rewrite Hg; discriminate).
    rewrite (string_eqb_true _ _ Hg).
    destruct (Z.ltb_spec cal_intake 1200); [reflexivity | lia].
  - intros HM HF.
    destruct (String.eqb_spec (_gender self) "M") as [Hm | Hm];
      destruct (Z.ltb_spec cal_intake 1500);
      destruct (String.eqb_spec (_gender self) "F") as [Hf | Hf];
      destruct (Z.ltb_spec cal_intake 1200);
      try (exfalso; tauto); cbn [andb];
      unfold WEIGHT_LOSS, WEIGHT_GAIN, recommendation, spec_goal_phrase;
      destruct (_goal self =? 1); try reflexivity;
      destruct (_goal self =? 3); reflexivity.
  - unfold report. rewrite calculator_eta.
    unfold mbind, IO_bind, lift.
    destruct (calc_daily_calorie_intake self); reflexivity.
  - vm_compute. reflexivity.
  - unfold report.
    replace (calc_daily_calorie_intake (calculator "F" 30 160 50 1 1))
      with (Ok 927 : result Z) by (vm_compute; reflexivity).
    reflexivity.
Qed.

Lemma display_calorie_results_spec_witness :
  display_calorie_results (calculator "M" 25 180 80 2 1) 1499 (Console [] [])
  = Returns tt (after_saying (Console [] []) caution_male) /\
  display_calorie_results (calculator "F" 30 160 50 1 1) 927 (Console [] [])
  = Returns tt (after_saying (Console [] []) caution_female) /\
  display_calorie_results (calculator "M" 25 180 80 2 1) 1982 (Console [] [])
  = Returns tt (after_saying (Console [] [])
      (phrase_loss ++ Fore.YELLOW ++ "1982")%string).
Proof.
  split; [| split].
  - apply (proj1 (display_calorie_results_spec
                    (calculator "M" 25 180 80 2 1) 1499 (Console [] []))).
    split; [reflexivity | lia].
  - apply (proj1 (proj2 (display_calorie_results_spec
                    (calculator "F" 30 160 50 1 1) 927 (Console [] [])))).
    split; [reflexivity | lia].
  - apply (proj1 (proj2 (proj2 (display_calorie_results_spec
                    (calculator "M" 25 180 80 2 1) 1982 (Console [] []))))).
    + intros [_ H]. lia.
    + intros [H _]. discriminate H.
Defined.

(** C2: for every age, height and weight, [_calc_rmr] computes
    [10*weight + 6.25*height - 5*age + 5] when the gender is "M" and
    [10*weight + 6.25*height - 5*age - 161] for every other gender, "F"
    among them, in the arithmetic of the plugin (an [OverflowError] of the
    one is an [OverflowError] of the other).  Where age, height and weight
    are at most [2^45] in absolute value no operation rounds, and the result
    is the double that stands for that rational number. *)
Theorem calc_rmr_by_gender (gender : string)
    (age height weight activity_level goal : Z) :
  let self := calculator gender age height weight activity_level goal in
  (gender = "M" -> _calc_rmr self = spec_rmr 5 age height weight) /\
  (gender <> "M" -> _calc_rmr self = spec_rmr (-161) age height weight) /\
  (Z.abs age <= 2 ^ 45 -> Z.abs height <= 2 ^ 45 -> Z.abs weight <= 2 ^ 45 ->
   exists rmr : float,
     _calc_rmr self = Ok (VFloat rmr) /\
     (SF2Q rmr == inject_Z (10 * weight) + (625 # 100) * inject_Z height
                  - inject_Z (5 * age)
                  + inject_Z (gender_constant_of gender))%Q).
Proof.
  intros self. split; [| split].
  - intros ->. exact (calc_rmr_formula self).
  - intros Hg. rewrite (calc_rmr_formula self). unfold self. simpl.
    unfold gender_constant_of. rewrite string_eqb_false by exact Hg.
    reflexivity.
  - intros Ha Hh Hw. eexists. split.
    + apply calc_rmr_exact; assumption.
    + simpl. rewrite SF2Q_quarter.
      * unfold Qeq, Qplus, Qminus, Qmult, Qopp, inject_Z. simpl. lia.
      * assert (Hg : Z.abs (gender_constant_of gender) <= 161).
        { unfold gender_constant_of. destruct (String.eqb _ _); lia. }
        assert (H45 : 2 ^ 45 = 35184372088832) by reflexivity.
        assert (H53 : 2 ^ 53 = 9007199254740992) by reflexivity.
        lia.
Qed.

Lemma calc_rmr_by_gender_witness :
  _calc_rmr (calculator "M" 25 180 80 2 2) = spec_rmr 5 25 180 80 /\
  _calc_rmr (calculator "F" 30 160 50 1 1) = spec_rmr (-161) 30 160 50 /\
  exists rmr : float,
    _calc_rmr (calculator "M" 25 180 80 2 2) = Ok (VFloat rmr) /\
    (SF2Q rmr == inject_Z (10 * 80) + (625 # 100) * inject_Z 180
                 - inject_Z (5 * 25) + inject_Z (gender_constant_of "M"))%Q.
Proof.
  split; [| split].
  - apply (proj1 (calc_rmr_by_gender "M" 25 180 80 2 2)). reflexivity.
  - apply (proj1 (proj2 (calc_rmr_by_gender "F" 30 160 50 1 1))). discriminate.
  - apply (proj2 (proj2 (calc_rmr_by_gender "M" 25 180 80 2 2)));
      vm_compute; discriminate.
Defined.



(** The four factors are the doubles nearest to 1.2, 1.375, 1.55 and 1.725:
    mantissa [m] with exponent -52, and [|m/2^52 - num/den|] is at most half
    a unit of the last place. *)
Lemma activity_factor_nearest :
  Forall (fun '(level, num, den, m) =>
            spec_activity_factor level = S754_finite false m (-52) /\
            2 * Z.abs (den * Z.pos m - num * 2 ^ 52) <= den)
    [ (1, 12, 10, 5404319552844595%positive);
      (2, 1375, 1000, 6192449487634432%positive);
      (3, 155, 100, 6980579422424269%positive);
      (4, 1725, 1000, 7768709357214106%positive) ].
Proof. repeat constructor; vm_compute; congruence. Qed.

(** C4: goal 1 takes 500 from the TDEE, goal 3 adds 500 and goal 2 leaves it,
    for every TDEE, negative ones too: nothing is clamped.  The fields
    "F", 14, 1, 1, 1, 1, each of which the collector accepts, give the
    intake -758. *)
Theorem calc_daily_calorie_intake_by_goal (gender : string)
    (age height weight activity_level tdee : Z) :
  _calc_daily_calorie_intake
    (calculator gender age height weight activity_level 1) tdee = tdee - 500 /\
  _calc_daily_calorie_intake
    (calculator gender age height weight activity_level 3) tdee = tdee + 500 /\
  _calc_daily_calorie_intake
    (calculator gender age height weight activity_level 2) tdee = tdee /\
  calc_daily_calorie_intake (calculator "F" 14 1 1 1 1) = Ok (-758) /\
  validate_gender "F" = true /\
  age_out_of_range 14 = false /\ height_out_of_range 1 = false /\
  weight_out_of_range 1 = false /\ activity_level_out_of_range 1 = false /\
  goal_out_of_range 1 = false.
Proof.
  repeat split; vm_compute; reflexivity.
Qed.

(** C5: for "M", 25 years, 180 cm, 80 kg, level 2 and goal 2 the RMR is
    1805, the product with 1.375 is 2481.875, the TDEE is 2482 and
    [calc_daily_calorie_intake] returns 2482; 2482 is not below 1500, and
    what is said is the recommendation to maintain, with 2482 in it. *)
Theorem example_male_maintain (c : console) :
  let self := calculator "M" 25 180 80 2 2 in
  _calc_rmr self = Ok (VFloat (quarter (4 * 1805))) /\
  (SF2Q (quarter (4 * 1805)) == 1805 # 1)%Q /\
  (SF2Q (float_mul (quarter (4 * 1805)) (float_lit 1375 1000)) == 2481875 # 1000)%Q /\
  _calc_tdee self (VFloat (quarter (4 * 1805))) = Ok 2482 /\
  calc_daily_calorie_intake self = Ok 2482 /\
  (2482 <? 1500) = false /\
  display_calorie_results self 2482 c
  = Returns tt (after_saying c (phrase_maintain ++ Fore.YELLOW ++ "2482")%string).
Proof.
  repeat split; try (vm_compute; reflexivity).
Qed.

(** C6, as the specification states it, fails for a weight of [10^15] kg
    (20 years, 170 cm): the sums are beyond [2^53], where doubles are two
    apart; the RMR for "M" is 10000000000000968 and the RMR for "F" is
    10000000000000800, 168 less.  Adding 166 to the latter as the plugin
    would gives 10000000000000966, not the former. *)
Lemma gap_166_counterexample :
  ~ gap_166 (calculator "M" 20 170 (10 ^ 15) 1 2)
            (calculator "F" 20 170 (10 ^ 15) 1 2) /\
  _calc_rmr (calculator "M" 20 170 (10 ^ 15) 1 2)
  = Ok (VFloat (S754_finite false 5000000000000484 1)) /\
  _calc_rmr (calculator "F" 20 170 (10 ^ 15) 1 2)
  = Ok (VFloat (S754_finite false 5000000000000400 1)) /\
  add (VFloat (S754_finite false 5000000000000400 1)) (VInt 166)
  = Ok (VFloat (S754_finite false 5000000000000483 1)).
Proof.
  split; [| repeat split; vm_compute; reflexivity].
  intros (x & y & Hx & Hy & Hxy).
  vm_compute in Hx. vm_compute in Hy.
  injection Hx as <-. injection Hy as <-.
  vm_compute in Hxy. discriminate Hxy.
Qed.

(** C6, amended: for a male and a female calculator with the same age, height
    and weight, each at most [2^45] in absolute value, both RMRs are
    computed and the one for "M" is the one for "F" plus 166, exactly; the
    plugin's own [+ 166] on the latter gives the former. *)
Theorem gap_166_bounded (male female : CalorieCalculator) :
  _gender male = "M" -> _gender female = "F" ->
  _age male = _age female -> _height male = _height female ->
  _weight male = _weight female ->
  Z.abs (_age male) <= 2 ^ 45 -> Z.abs (_height male) <= 2 ^ 45 ->
  Z.abs (_weight male) <= 2 ^ 45 ->
  gap_166 male female /\
  (rmr ← _calc_rmr female; add rmr (VInt 166)) = _calc_rmr male.
Proof.
  intros Hm Hf Ha Hh Hw Ba Bh Bw.
  assert (H45 : 2 ^ 45 = 35184372088832) by reflexivity.
  assert (H51 : 2 ^ 51 = 2251799813685248) by reflexivity.
  assert (H53 : 2 ^ 53 = 9007199254740992) by reflexivity.
  unfold gap_166.
  rewrite (calc_rmr_exact male), (calc_rmr_exact female) by lia.
  rewrite Hm, Hf, <- Ha, <- Hh, <- Hw.
  change (gender_constant_of "M") with 5.
  change (gender_constant_of "F") with (-161).
  set (base := 40 * _weight male + 25 * _height male - 20 * _age male).
  assert (Hb : Z.abs base <= 85 * 2 ^ 45) by (unfold base; lia).
  split.
  - exists (quarter (base + 4 * 5)), (quarter (base + 4 * -161)).
    split; [reflexivity | split; [reflexivity |]].
    rewrite !SF2Q_quarter by lia.
    unfold Qeq, Qplus. simpl. lia.
  - cbn [mbind result_bind add].
    rewrite (float_of_int_exact 166) by lia.
    cbn [mbind result_bind]. rewrite quarter_add by lia.
    do 3 f_equal. lia.
Qed.

Lemma gap_166_bounded_witness :
  gap_166 (calculator "M" 25 180 80 2 2) (calculator "F" 25 180 80 2 2) /\
  (rmr ← _calc_rmr (calculator "F" 25 180 80 2 2); add rmr (VInt 166))
  = _calc_rmr (calculator "M" 25 180 80 2 2).
Proof.
  apply (gap_166_bounded (calculator "M" 25 180 80 2 2)
                         (calculator "F" 25 180 80 2 2));
    try reflexivity; vm_compute; discriminate.
Defined.

(** C7: with an activity level outside 1..4 [_calc_tdee] raises, whatever
    the RMR: the dict has no such key, [get] gives [None], and the product
    with [None] is a [TypeError].  [calc_daily_calorie_intake] then returns
    no number. *)
Theorem calc_tdee_unknown_level (self : CalorieCalculator) (rmr : value) :
  ~ (1 <= _activity_level self <= 4) ->
  _calc_tdee self rmr = Raise TypeError /\
  exists e : exn, calc_daily_calorie_intake self = Raise e.
Proof.
  intros H.
  assert (Htdee : forall v, _calc_tdee self v = Raise TypeError).
  { intros v. unfold _calc_tdee. rewrite activity_factors_miss by exact H.
    destruct v; reflexivity. }
  split; [apply Htdee |].
  unfold calc_daily_calorie_intake.
  destruct (_calc_rmr self) as [v | e]; cbn [mbind result_bind].
  - rewrite Htdee. eexists. reflexivity.
  - eexists. reflexivity.
Qed.

Lemma calc_tdee_unknown_level_witness :
  _calc_tdee (calculator "M" 25 180 80 5 2) (VFloat (quarter 7220))
  = Raise TypeError /\
  exists e : exn, calc_daily_calorie_intake (calculator "M" 25 180 80 5 2) = Raise e.
Proof.
  apply (calc_tdee_unknown_level (calculator "M" 25 180 80 5 2)
           (VFloat (quarter 7220))).
  simpl. lia.
Defined.

(** C8: [validate_input] returns [False] when [int(input)] raises
    [ValueError] and when the int is one that the range test turns down,
    with nothing to tell the two apart, and [True] otherwise; so a value
    that [read_input] returns is the int of a line that was typed and passes
    the range test. *)
Theorem validate_input_spec (input : string) (bool_expression : Z -> bool) :
  (int input = Raise ValueError ->
   validate_input input bool_expression = Ok false) /\
  (forall n, int input = Ok n -> bool_expression n = true ->
   validate_input input bool_expression = Ok false) /\
  (forall n, int input = Ok n -> bool_expression n = false ->
   validate_input input bool_expression = Ok true) /\
  (forall input_message error_message (c c' : console) (n : Z),
   read_input input_message bool_expression error_message c = Returns n c' ->
   bool_expression n = false /\
   exists line, In line (typed c) /\ int line = Ok n).
Proof.
  rewrite validate_input_eq. unfold int.
  split; [| split; [| split]].
  - destruct (parse_int input); [discriminate | reflexivity].
  - intros n Hn Hb. destruct (parse_int input); [| discriminate].
    injection Hn as ->. rewrite Hb. reflexivity.
  - intros n Hn Hb. destruct (parse_int input); [| discriminate].
    injection Hn as ->. rewrite Hb. reflexivity.
  - intros input_message error_message c c' n Hr.
    destruct (read_input_loop_returns _ _ _ _ _ _ _ Hr) as (Hb & line & Hin & Hp).
    split; [exact Hb |]. exists line. rewrite Hp. auto.
Qed.

Lemma validate_input_spec_witness :
  validate_input "x" age_out_of_range = Ok false /\
  validate_input "10" age_out_of_range = Ok false /\
  validate_input "25" age_out_of_range = Ok true /\
  (age_out_of_range 25 = false /\
   exists line, In line ["x"; "10"; "25"] /\ int line = Ok 25).
Proof.
  split; [| split; [| split]].
  - apply (proj1 (validate_input_spec "x" age_out_of_range)). reflexivity.
  - apply (proj1 (proj2 (validate_input_spec "10" age_out_of_range)) 10);
      reflexivity.
  - apply (proj1 (proj2 (proj2 (validate_input_spec "25" age_out_of_range))) 25);
      reflexivity.
  - apply (proj2 (proj2 (proj2 (validate_input_spec "25" age_out_of_range)))
             "Age: " "again" (Console ["x"; "10"; "25"] [])
             (Console [] [Asked "Age: "; Printed (red "again");
                          Asked "Age: "; Printed (red "again"); Asked "Age: "])).
    reflexivity.
Defined.

(** C9, as the specification states it, fails: "175.5" denotes a positive
    number and is turned down for the height and for the weight;
    [read_input] prints the error and asks again. *)
Lemma decimal_height_counterexample :
  validate_input "175.5" height_out_of_range = Ok false /\
  validate_input "175.5" weight_out_of_range = Ok false /\
  read_input "Height (cm): " height_out_of_range "again" (Console ["175.5"] [])
  = Awaits (Console [] [Asked "Height (cm): "; Printed (red "again");
                        Asked "Height (cm): "]).
Proof. repeat split. Qed.

(** C9, amended: for the height and for the weight a line is accepted exactly
    when [int] reads an integer from it and that integer is strictly
    positive. *)
Theorem height_weight_accepted (input : string) :
  (validate_input input height_out_of_range = Ok true <->
   exists n, int input = Ok n /\ 0 < n) /\
  (validate_input input weight_out_of_range = Ok true <->
   exists n, int input = Ok n /\ 0 < n).
Proof.
  assert (H : Ok (match parse_int input with
                  | Some n => negb (n <=? 0)
                  | None => false
                  end) = Ok true <->
              exists n, int input = Ok n /\ 0 < n).
  { unfold int. destruct (parse_int input) as [k |].
    - destruct (Z.leb_spec k 0); simpl; split.
      + discriminate.
      + intros (n & [= <-] & Hn). lia.
      + intros _. exists k. split; [reflexivity | lia].
      + reflexivity.
    - split; [discriminate | intros (n & Hn & _); discriminate]. }
  rewrite !validate_input_eq. split; exact H.
Qed.

Lemma height_weight_accepted_witness :
  validate_input "175" height_out_of_range = Ok true /\
  validate_input "80" weight_out_of_range = Ok true.
Proof.
  split.
  - apply (proj1 (height_weight_accepted "175")). exists 175.
    split; [reflexivity | lia].
  - apply (proj2 (height_weight_accepted "80")). exists 80.
    split; [reflexivity | lia].
Defined.

(** C10: for every string and every range test [validate_input] returns a
    bool; what its [try] raises is a [ValueError] (from [int]) or a
    [ValueOutOfRangeError], and both are caught. *)
Theorem validate_input_total (input : string) (bool_expression : Z -> bool) :
  (exists b : bool, validate_input input bool_expression = Ok b) /\
  (forall e, validate_input_try input bool_expression = Raise e ->
     (e = ValueError \/ e = ValueOutOfRangeError) /\ validation_errors e = true).
Proof.
  split.
  - rewrite validate_input_eq. eexists. reflexivity.
  - unfold validate_input_try, int. intros e.
    destruct (parse_int input) as [n |]; cbn [mbind result_bind].
    + destruct (bool_expression n); [| discriminate].
      intros [= <-]. auto.
    + intros [= <-]. auto.
Qed.

Lemma validate_input_total_witness :
  (exists b : bool, validate_input "x" age_out_of_range = Ok b) /\
  (ValueError = ValueError \/ ValueError = ValueOutOfRangeError) /\
  validation_errors ValueError = true.
Proof.
  split.
  - apply (proj1 (validate_input_total "x" age_out_of_range)).
  - apply (proj2 (validate_input_total "x" age_out_of_range) ValueError).
    reflexivity.
Defined.

(** ** The conversation as a whole *)

Lemma read_gender_loop_returns (input_message error_message : string)
    (lines : list string) : forall (log : list event) (g : string) (c : console),
  read_gender_loop input_message error_message lines log = Returns g c ->
  g = "M" \/ g = "F".
Proof.
  induction lines as [| line rest IH]; intros log g c; simpl; [discriminate |].
  destruct (validate_gender line) eqn:Hv; [| apply IH].
  intros [= <- _]. unfold validate_gender in Hv.
  apply orb_true_iff in Hv. rewrite !String.eqb_eq in Hv. exact Hv.
Qed.

(** "x" for the age and then "25": the error is printed once and 25 is
    taken; the conversation ends with the recommendation of 2482. *)
Lemma run_example :
  exists c : console,
    run ["m"; "x"; "25"; "180"; "80"; "2"; "2"] = Returns tt c /\
    typed c = [] /\
    last (shown c) = Some (Said (recommendation phrase_maintain 2482)) /\
    length (List.filter (fun ev => match ev with Printed _ => true | _ => false end)
              (shown c)) = 1%nat.
Proof.
  eexists. split; [vm_compute; reflexivity |].
  repeat split; vm_compute; reflexivity.
Qed.

(** * More of the plugin *)

(** ** Rounding of long mantissas *)

Lemma shr_1_div2 (r : shr_record) :
  0 <= shr_m r -> shr_m (shr_1 r) = shr_m r / 2.
Proof.
  intros H. rewrite <- Z.div2_div.
  destruct r as [[| [p | p |] | p] b s]; simpl in *; try reflexivity; lia.
Qed.

Lemma shr_iter_div (n : positive) : forall r : shr_record,
  0 <= shr_m r -> shr_m (Pos.iter shr_1 r n) = shr_m r / 2 ^ Z.pos n.
Proof.
  induction n as [| n IH] using Pos.peano_ind; intros r Hr.
  - simpl Pos.iter. rewrite shr_1_div2 by exact Hr. reflexivity.
  - rewrite Pos.iter_succ, shr_1_div2.
    + rewrite IH by exact Hr.
      rewrite Pos2Z.inj_succ, Z.pow_succ_r by lia.
      rewrite Z.div_div by (try apply Z.pow_pos_nonneg; lia).
      f_equal. lia.
    + rewrite IH by exact Hr. apply Z.div_pos; [exact Hr |].
      apply Z.pow_pos_nonneg; lia.
Qed.

Lemma round_nearest_even_cases (q : Z) (l : location) :
  round_nearest_even q l = q \/ round_nearest_even q l = q + 1.
Proof.
  destruct l as [| []]; simpl; auto. destruct (Z.even q); auto.
Qed.

Lemma shr_nonneg (r : shr_record) (e n : Z) :
  0 <= shr_m r -> 0 <= shr_m (fst (shr r e n)).
Proof.
  intros H. unfold shr. destruct n as [| p | p]; simpl fst; try exact H.
  rewrite iter_pos_iter, shr_iter_div by exact H.
  apply Z.div_pos; [exact H | apply Z.pow_pos_nonneg; lia].
Qed.

Lemma shr_record_of_loc_m (m : Z) (l : location) :
  shr_m (shr_record_of_loc m l) = m.
Proof. destruct l as [| []]; reflexivity. Qed.

(** Rounding a mantissa that is not negative gives a number or an infinity. *)
Lemma round_aux_not_nan (s : bool) (mx ex : Z) (lx : location) :
  0 <= mx -> binary_round_aux prec emax s mx ex lx <> S754_nan.
Proof.
  intros H. unfold binary_round_aux, shr_fexp.
  pose proof (shr_nonneg (shr_record_of_loc mx lx) ex
                (fexp prec emax (Zdigits2 mx + ex) - ex)) as H1.
  rewrite shr_record_of_loc_m in H1. specialize (H1 H).
  destruct (shr _ ex _) as [mrs' e'] eqn:E1. simpl fst in H1.
  set (m' := round_nearest_even (shr_m mrs') (loc_of_shr_record mrs')).
  assert (Hm' : 0 <= m').
  { destruct (round_nearest_even_cases (shr_m mrs') (loc_of_shr_record mrs'));
      unfold m'; lia. }
  pose proof (shr_nonneg (shr_record_of_loc m' loc_Exact) e'
                (fexp prec emax (Zdigits2 m' + e') - e')) as H2.
  rewrite shr_record_of_loc_m in H2. specialize (H2 Hm').
  destruct (shr _ e' _) as [mrs'' e''] eqn:E2. simpl fst in H2.
  destruct (shr_m mrs'') as [| p | p]; [discriminate | | lia].
  destruct (e'' <=? emax - prec); discriminate.
Qed.

Lemma digits2_bounds (p : positive) :
  2 ^ (Z.pos (digits2_pos p) - 1) <= Z.pos p < 2 ^ Z.pos (digits2_pos p).
Proof.
  rewrite digits2_log2.
  replace (Z.log2 (Z.pos p) + 1 - 1) with (Z.log2 (Z.pos p)) by lia.
  apply (Z.log2_spec (Z.pos p)). lia.
Qed.

Lemma digits2_unique (p : positive) (d : Z) :
  2 ^ (d - 1) <= Z.pos p < 2 ^ d -> Z.pos (digits2_pos p) = d.
Proof.
  intros H. rewrite digits2_log2.
  assert (0 <= d - 1).
  { destruct (Z_lt_le_dec (d - 1) 0) as [Hn |]; [| assumption].
    destruct (Z_lt_le_dec d 0).
    - rewrite (Z.pow_neg_r 2 d) in H by assumption. lia.
    - assert (d = 0) as -> by lia. simpl in H. lia. }
  rewrite (Z.log2_unique (Z.pos p) (d - 1)); [lia | assumption |].
  replace (Z.succ (d - 1)) with d by lia. exact H.
Qed.

(** The second shift of [binary_round_aux]: a mantissa of 53 bits stays, the
    mantissa [2^53] loses its last bit. *)
Lemma shr_fexp_rounded (pm : positive) (e1 : Z) :
  2 ^ 52 <= Z.pos pm <= 2 ^ 53 -> -1074 <= e1 ->
  exists (m : positive) (e : Z),
    (e = e1 \/ e = e1 + 1) /\ Z.pos (digits2_pos m) = 53 /\
    Z.pos m * 2 ^ (e - e1) = Z.pos pm /\
    shr_fexp prec emax (Z.pos pm) e1 loc_Exact
    = (Build_shr_record (Z.pos m) false false, e).
Proof.
  intros Hm He.
  assert (H52 : 2 ^ 52 = 4503599627370496) by reflexivity.
  assert (H53 : 2 ^ 53 = 9007199254740992) by reflexivity.
  unfold shr_fexp, Zdigits2.
  destruct (Z.eq_dec (Z.pos pm) (2 ^ 53)) as [Heq | Hne].
  - assert (pm = 9007199254740992%positive) as -> by lia.
    exists 4503599627370496%positive, (e1 + 1).
    split; [right; reflexivity |].
    split; [vm_compute; reflexivity |].
    split; [replace (e1 + 1 - e1) with 1 by lia; reflexivity |].
    replace (Z.pos (digits2_pos 9007199254740992)) with 54
      by (vm_compute; reflexivity).
    replace (fexp prec emax (54 + e1) - e1) with 1
      by (unfold fexp, emin, prec, emax; lia).
    reflexivity.
  - assert (Hdm : Z.pos (digits2_pos pm) = 53).
    { apply digits2_unique. change (53 - 1) with 52. lia. }
    exists pm, e1. split; [left; reflexivity |]. split; [exact Hdm |].
    split; [rewrite Z.sub_diag; simpl; lia |].
    rewrite Hdm.
    replace (fexp prec emax (53 + e1) - e1) with 0
      by (unfold fexp, emin, prec, emax; lia).
    reflexivity.
Qed.

(** A mantissa of more than 53 bits in the normal range: 53 bits are kept,
    one unit of the last place away from the mantissa at most, and the
    exponent decides between a number and an infinity. *)
Lemma round_aux_long (s : bool) (M : positive) (E : Z) :
  53 < Z.pos (digits2_pos M) ->
  -1074 <= Z.pos (digits2_pos M) + E - 53 ->
  exists (m : positive) (e : Z),
    (e = Z.pos (digits2_pos M) + E - 53 \/ e = Z.pos (digits2_pos M) + E - 52) /\
    Z.pos (digits2_pos m) = 53 /\
    Z.abs (Z.pos m * 2 ^ (e - E) - Z.pos M) <= 2 ^ (e - E) /\
    binary_round_aux prec emax s (Z.pos M) E loc_Exact
    = if e <=? 971 then S754_finite s m e else S754_infinity s.
Proof.
  intros Hd Hr. pose proof (digits2_bounds M) as HM.
  set (d := Z.pos (digits2_pos M)) in *.
  unfold binary_round_aux.
  pose proof (pow2_pos (d - 53) ltac:(lia)) as Hp.
  assert (Hfirst : exists r1, 2 ^ 52 <= shr_m r1 < 2 ^ 53 /\
            shr_m r1 * 2 ^ (d - 53) <= Z.pos M < (shr_m r1 + 1) * 2 ^ (d - 53) /\
            shr_fexp prec emax (Z.pos M) E loc_Exact = (r1, d + E - 53)).
  { unfold shr_fexp. simpl Zdigits2. fold d.
    replace (fexp prec emax (d + E) - E) with (d - 53)
      by (unfold fexp, emin, prec, emax; lia).
    destruct (d - 53) as [| n | n] eqn:Hn; try lia.
    unfold shr. simpl shr_record_of_loc. rewrite iter_pos_iter.
    eexists. split; [| split; [| f_equal; lia]];
      rewrite shr_iter_div by (simpl; lia); simpl shr_m.
    - assert (Hsplit : 2 ^ d = 2 ^ 53 * 2 ^ Z.pos n).
      { rewrite <- pow2_add by lia. f_equal. lia. }
      assert (Hsplit' : 2 ^ (d - 1) = 2 ^ 52 * 2 ^ Z.pos n).
      { rewrite <- pow2_add by lia. f_equal. lia. }
      split.
      + apply Z.div_le_lower_bound; lia.
      + apply Z.div_lt_upper_bound; lia.
    - pose proof (Z.div_mod (Z.pos M) (2 ^ Z.pos n) ltac:(lia)) as Hdm.
      pose proof (Z.mod_pos_bound (Z.pos M) (2 ^ Z.pos n) Hp) as Hmod.
      nia. }
  destruct Hfirst as (r1 & Hqb & Hqv & ->).
  assert (Hm' : exists pm, round_nearest_even (shr_m r1) (loc_of_shr_record r1)
                           = Z.pos pm /\ 2 ^ 52 <= Z.pos pm <= 2 ^ 53 /\
                           (Z.pos pm = shr_m r1 \/ Z.pos pm = shr_m r1 + 1)).
  { assert (H52 : 2 ^ 52 = 4503599627370496) by reflexivity.
    destruct (round_nearest_even_cases (shr_m r1) (loc_of_shr_record r1)) as [H | H];
      rewrite H.
    - exists (Z.to_pos (shr_m r1)). rewrite Z2Pos.id; lia.
    - exists (Z.to_pos (shr_m r1 + 1)). rewrite Z2Pos.id; lia. }
  destruct Hm' as (pm & -> & Hpm & Hpq).
  destruct (shr_fexp_rounded pm (d + E - 53) Hpm Hr)
    as (m & e & He & Hdm & Hval & ->).
  exists m, e. split; [lia |]. split; [exact Hdm |]. split.
  - replace (e - E) with ((e - (d + E - 53)) + (d - 53)) by lia.
    rewrite pow2_add by lia. rewrite Z.mul_assoc, Hval.
    pose proof (pow2_pos (e - (d + E - 53)) ltac:(lia)).
    nia.
  - simpl shr_m. unfold emax, prec. reflexivity.
Qed.

(** ** What the arithmetic of the calculator can raise *)

Lemma round_not_nan (s : bool) (p : positive) (e : Z) :
  binary_round prec emax s p e <> S754_nan.
Proof.
  unfold binary_round. destruct (shl_align p e _) as [mz ez].
  apply round_aux_not_nan. lia.
Qed.

Lemma normalize_not_nan (m e : Z) :
  binary_normalize prec emax m e false <> S754_nan.
Proof.
  destruct m as [| p | p]; simpl; [discriminate | |]; apply round_not_nan.
Qed.

Lemma float_of_int_number (n : Z) (f : float) :
  float_of_int n = Ok f -> is_number f = true.
Proof.
  unfold float_of_int. pose proof (normalize_not_nan n 0) as H.
  destruct (binary_normalize prec emax n 0 false) as [s | s | | s m e];
    try discriminate; try congruence; intros [= <-]; reflexivity.
Qed.

Lemma float_of_int_raises (n : Z) (e : exn) :
  float_of_int n = Raise e -> e = OverflowError.
Proof.
  unfold float_of_int.
  destruct (binary_normalize prec emax n 0 false); try discriminate.
  intros [= <-]. reflexivity.
Qed.

Lemma float_mul_not_nan_l (x y : float) :
  is_number x = true -> x <> S754_zero true -> x <> S754_zero false ->
  y <> S754_nan -> float_mul x y <> S754_nan.
Proof.
  intros Hx Hz Hz' Hy.
  destruct x as [[] | sx | | sx mx ex]; try discriminate; try congruence.
  destruct y as [sy | sy | | sy my ey]; try discriminate; try congruence.
  unfold float_mul, SFmul. apply round_aux_not_nan. lia.
Qed.

Lemma float_mul_not_nan_r (x y : float) :
  x <> S754_nan -> is_number y = true ->
  y <> S754_zero true -> y <> S754_zero false ->
  float_mul x y <> S754_nan.
Proof.
  intros Hx Hy Hz Hz'.
  destruct y as [[] | sy | | sy my ey]; try discriminate; try congruence.
  destruct x as [sx | sx | | sx mx ex]; try discriminate; try congruence.
  unfold float_mul, SFmul. apply round_aux_not_nan. lia.
Qed.

Lemma float_add_not_nan_r (x y : float) :
  x <> S754_nan -> is_number y = true -> float_add x y <> S754_nan.
Proof.
  intros Hx Hy.
  destruct y as [sy | sy | | sy my ey]; try discriminate;
    destruct x as [sx | sx | | sx mx ex]; try discriminate; try congruence;
    try (destruct sx, sy; discriminate).
  unfold float_add, SFadd. apply normalize_not_nan.
Qed.

Lemma float_add_not_nan_l (x y : float) :
  is_number x = true -> y <> S754_nan -> float_add x y <> S754_nan.
Proof.
  intros Hx Hy.
  destruct x as [sx | sx | | sx mx ex]; try discriminate;
    destruct y as [sy | sy | | sy my ey]; try discriminate; try congruence;
    try (destruct sx, sy; discriminate).
  unfold float_add, SFadd. apply normalize_not_nan.
Qed.

(** [_calc_rmr] returns a float that is a number or an infinity, or raises
    [OverflowError]. *)
Lemma calc_rmr_outcome (self : CalorieCalculator) :
  (exists f, _calc_rmr self = Ok (VFloat f) /\ f <> S754_nan) \/
  _calc_rmr self = Raise OverflowError.
Proof.
  unfold _calc_rmr. cbn [mul mbind result_bind].
  destruct (float_of_int (_height self)) as [fh | e] eqn:Hh;
    [| right; rewrite (float_of_int_raises _ _ Hh); reflexivity].
  cbn [add mbind result_bind].
  destruct (float_of_int (10 * _weight self)) as [fw | e] eqn:Hw;
    [| right; rewrite (float_of_int_raises _ _ Hw); reflexivity].
  cbn [add mbind result_bind].
  destruct (float_of_int (-5 * _age self)) as [fa | e] eqn:Ha;
    [| right; rewrite (float_of_int_raises _ _ Ha); reflexivity].
  cbn [add mbind result_bind].
  assert (Hp : float_mul (float_lit 625 100) fh <> S754_nan).
  { apply float_mul_not_nan_l; try (vm_compute; congruence).
    pose proof (float_of_int_number _ _ Hh).
    destruct fh; try discriminate; congruence. }
  pose proof (float_add_not_nan_l fw _ (float_of_int_number _ _ Hw) Hp) as H1.
  pose proof (float_add_not_nan_r _ fa H1 (float_of_int_number _ _ Ha)) as H2.
  destruct (String.eqb (_gender self) "M"); cbn [add mbind result_bind].
  - left. eexists. split; [reflexivity |].
    apply float_add_not_nan_r; [exact H2 | reflexivity].
  - left. eexists. split; [reflexivity |].
    apply float_add_not_nan_r; [exact H2 | reflexivity].
Qed.

Lemma round_float_outcome (f : float) :
  f <> S754_nan ->
  (exists n, round (VFloat f) = Ok n) \/ round (VFloat f) = Raise OverflowError.
Proof.
  intros H. destruct f as [s | s | | s m e]; simpl; eauto. congruence.
Qed.

Lemma activity_factor_number (activity_level : Z) :
  exists m, spec_activity_factor activity_level = S754_finite false m (-52) /\
            Z.pos (digits2_pos m) = 53.
Proof.
  unfold spec_activity_factor.
  destruct (activity_level =? 1); [eexists; split; vm_compute; reflexivity |].
  destruct (activity_level =? 2); [eexists; split; vm_compute; reflexivity |].
  destruct (activity_level =? 3); eexists; split; vm_compute; reflexivity.
Qed.

Lemma calc_tdee_outcome (self : CalorieCalculator) (f : float) :
  1 <= _activity_level self <= 4 -> f <> S754_nan ->
  (exists n, _calc_tdee self (VFloat f) = Ok n) \/
  _calc_tdee self (VFloat f) = Raise OverflowError.
Proof.
  intros Hl Hf. unfold _calc_tdee.
  rewrite activity_factors_get by exact Hl.
  destruct (activity_factor_number (_activity_level self)) as (m & -> & _).
  cbn [mul mbind result_bind].
  apply round_float_outcome.
  apply float_mul_not_nan_r; [exact Hf | reflexivity | discriminate | discriminate].
Qed.

(** An int of [2^1024] or more, in absolute value, is no float. *)
Lemma float_of_int_overflow (n : Z) :
  2 ^ 1024 <= Z.abs n -> float_of_int n = Raise OverflowError.
Proof.
  assert (Hpos : forall p : positive, 2 ^ 1024 <= Z.pos p ->
            binary_normalize prec emax (Z.pos p) 0 false = S754_infinity false).
  { intros p Hp. simpl binary_normalize. unfold binary_round.
    pose proof (digits2_bounds p) as Hb.
    assert (Hd : 1025 <= Z.pos (digits2_pos p)).
    { destruct (Z_lt_le_dec (Z.pos (digits2_pos p)) 1025) as [Hlt |]; [| lia].
      assert (2 ^ Z.pos (digits2_pos p) <= 2 ^ 1024)
        by (apply Z.pow_le_mono_r; lia).
      lia. }
    set (d := Z.pos (digits2_pos p)) in *.
    replace (fexp prec emax (d + 0)) with (d - 53)
      by (unfold fexp, emin, prec, emax; lia).
    unfold shl_align. destruct (d - 53 - 0) as [| k | k] eqn:Hk; try lia.
    destruct (round_aux_long false p 0) as (m & e & He & _ & _ & ->); fold d; try lia.
    destruct (Z.leb_spec e 971); [lia | reflexivity]. }
  intros H. unfold float_of_int.
  assert (H1024 : 0 < 2 ^ 1024) by (apply Z.pow_pos_nonneg; lia).
  destruct n as [| p | p]; simpl Z.abs in H.
  - lia.
  - rewrite Hpos by exact H. reflexivity.
  - change (Z.neg p) with (- Z.pos p). rewrite normalize_opp, Hpos by exact H.
    reflexivity.
Qed.

(** X1: a height, a weight or an age of [2^1024] or more makes [_calc_rmr]
    raise [OverflowError]; the range tests of the collector accept such
    values, and nothing in [__call__] catches the exception. *)
Theorem calc_rmr_overflow (self : CalorieCalculator) (c : console) :
  2 ^ 1024 <= _height self \/ 2 ^ 1024 <= _weight self \/ 2 ^ 1024 <= _age self ->
  _calc_rmr self = Raise OverflowError /\
  report (_gender self) (_age self) (_height self) (_weight self)
    (_activity_level self) (_goal self) c = Fails OverflowError c.
Proof.
  intros H.
  assert (H1024 : 0 < 2 ^ 1024) by (apply Z.pow_pos_nonneg; lia).
  assert (Hr : _calc_rmr self = Raise OverflowError).
  { unfold _calc_rmr. cbn [mul mbind result_bind].
    destruct (float_of_int (_height self)) as [fh | e] eqn:Hh;
      [| rewrite (float_of_int_raises _ _ Hh); reflexivity].
    cbn [add mbind result_bind].
    destruct (float_of_int (10 * _weight self)) as [fw | e] eqn:Hw;
      [| rewrite (float_of_int_raises _ _ Hw); reflexivity].
    cbn [add mbind result_bind].
    destruct (float_of_int (-5 * _age self)) as [fa | e] eqn:Ha;
      [| rewrite (float_of_int_raises _ _ Ha); reflexivity].
    exfalso. destruct H as [H | [H | H]].
    - rewrite float_of_int_overflow in Hh by lia. discriminate.
    - rewrite float_of_int_overflow in Hw by lia. discriminate.
    - rewrite float_of_int_overflow in Ha by lia. discriminate. }
  split; [exact Hr |].
  unfold report. rewrite calculator_eta.
  unfold calc_daily_calorie_intake. rewrite Hr. reflexivity.
Qed.

Lemma calc_rmr_overflow_witness :
  _calc_rmr (calculator "M" 25 (2 ^ 1024) 80 2 2) = Raise OverflowError /\
  report "M" 25 (2 ^ 1024) 80 2 2 (Console [] []) = Fails OverflowError (Console [] []).
Proof.
  apply (calc_rmr_overflow (calculator "M" 25 (2 ^ 1024) 80 2 2) (Console [] [])).
  left. simpl _height. lia.
Defined.

(** X2: [calc_daily_calorie_intake] raises nothing but [OverflowError], and
    [TypeError] when the activity level is none of 1, 2, 3, 4. *)
Theorem calc_daily_calorie_intake_raises (self : CalorieCalculator) (e : exn) :
  calc_daily_calorie_intake self = Raise e ->
  e = OverflowError \/ (e = TypeError /\ ~ (1 <= _activity_level self <= 4)).
Proof.
  unfold calc_daily_calorie_intake.
  destruct (calc_rmr_outcome self) as [(f & -> & Hf) | ->];
    cbn [mbind result_bind]; [| intros [= <-]; auto].
  destruct (Z_le_dec 1 (_activity_level self)) as [H1 |];
    [destruct (Z_le_dec (_activity_level self) 4) as [H4 |] |].
  - destruct (calc_tdee_outcome self f (conj H1 H4) Hf) as [(n & ->) | ->];
      cbn [mbind result_bind]; [discriminate | intros [= <-]; auto].
  - unfold _calc_tdee. rewrite activity_factors_miss by lia.
    cbn [mul mbind result_bind]. intros [= <-]. right. split; [reflexivity | lia].
  - unfold _calc_tdee. rewrite activity_factors_miss by lia.
    cbn [mul mbind result_bind]. intros [= <-]. right. split; [reflexivity | lia].
Qed.

Lemma calc_daily_calorie_intake_raises_witness :
  calc_daily_calorie_intake (calculator "M" 25 180 80 7 2) = Raise TypeError /\
  (TypeError = OverflowError \/ (TypeError = TypeError /\ ~ (1 <= 7 <= 4))).
Proof.
  split; [vm_compute; reflexivity |].
  apply (calc_daily_calorie_intake_raises (calculator "M" 25 180 80 7 2) TypeError).
  vm_compute. reflexivity.
Defined.

Lemma digits2_mul_53 (a b : positive) :
  Z.pos (digits2_pos a) = 53 -> Z.pos (digits2_pos b) = 53 ->
  105 <= Z.pos (digits2_pos (a * b)) <= 106.
Proof.
  intros Ha Hb.
  pose proof (digits2_bounds a) as Ba. pose proof (digits2_bounds b) as Bb.
  pose proof (digits2_bounds (a * b)) as Bab.
  rewrite Ha in Ba. rewrite Hb in Bb. change (53 - 1) with 52 in *.
  rewrite Pos2Z.inj_mul in Bab.
  assert (H104 : 2 ^ 104 = 2 ^ 52 * 2 ^ 52) by reflexivity.
  assert (H106 : 2 ^ 106 = 2 ^ 53 * 2 ^ 53) by reflexivity.
  assert (Hlo : 2 ^ 104 <= Z.pos a * Z.pos b) by (rewrite H104; nia).
  assert (Hhi : Z.pos a * Z.pos b < 2 ^ 106) by (rewrite H106; nia).
  set (d := Z.pos (digits2_pos (a * b))) in *.
  split.
  - destruct (Z_lt_le_dec d 105); [| assumption].
    assert (2 ^ d <= 2 ^ 104) by (apply Z.pow_le_mono_r; lia). lia.
  - destruct (Z_lt_le_dec 106 d); [| assumption].
    assert (2 ^ 106 <= 2 ^ (d - 1)) by (apply Z.pow_le_mono_r; lia). lia.
Qed.

(** The product of an exact quarter below [2^53] with a factor is a number. *)
Lemma quarter_times_factor (z activity_level : Z) :
  Z.abs z < 2 ^ 53 ->
  is_number (float_mul (quarter z) (spec_activity_factor activity_level)) = true.
Proof.
  intros Hz.
  destruct (activity_factor_number activity_level) as (mf & -> & Hmf).
  destruct (Z.eq_dec z 0) as [-> | Hnz]; [reflexivity |].
  destruct (quarter_finite z Hnz Hz) as (m & [Hm He] & _ & ->).
  pose proof (log2_below z Hnz Hz) as Hl.
  pose proof (digits2_mul_53 m mf Hm Hmf) as Hd.
  unfold float_mul, SFmul.
  destruct (round_aux_long (xorb (z <? 0) false) (m * mf)
              (Z.log2 (Z.abs z) - 54 + -52)) as (m' & e' & He' & _ & _ & ->);
    try lia.
  destruct (Z.leb_spec e' 971); [reflexivity | lia].
Qed.

(** X3: for an age, a height and a weight of at most [2^45] in absolute value
    and an activity level from 1 to 4, nothing is raised:
    [calc_daily_calorie_intake] returns an int, and the last three
    statements of [__call__] say exactly one text, a caution or the
    recommendation with that int. *)
Theorem calc_daily_calorie_intake_returns (self : CalorieCalculator) (c : console) :
  Z.abs (_age self) <= 2 ^ 45 -> Z.abs (_height self) <= 2 ^ 45 ->
  Z.abs (_weight self) <= 2 ^ 45 -> 1 <= _activity_level self <= 4 ->
  exists intake : Z,
    calc_daily_calorie_intake self = Ok intake /\
    exists text : string,
      report (_gender self) (_age self) (_height self) (_weight self)
        (_activity_level self) (_goal self) c
      = Returns tt (after_saying c text) /\
      (text = caution_male \/ text = caution_female \/
       text = recommendation (spec_goal_phrase (_goal self)) intake).
Proof.
  intros Ha Hh Hw Hl.
  assert (H45 : 2 ^ 45 = 35184372088832) by reflexivity.
  assert (H53 : 2 ^ 53 = 9007199254740992) by reflexivity.
  assert (Hg : Z.abs (gender_constant_of (_gender self)) <= 161).
  { unfold gender_constant_of. destruct (String.eqb _ _); lia. }
  assert (Hi : exists intake, calc_daily_calorie_intake self = Ok intake).
  { unfold calc_daily_calorie_intake.
    rewrite (calc_rmr_exact self Hw Hh Ha). cbn [mbind result_bind].
    unfold _calc_tdee. rewrite activity_factors_get by exact Hl.
    cbn [mul mbind result_bind].
    pose proof (quarter_times_factor
      (40 * _weight self + 25 * _height self - 20 * _age self
       + 4 * gender_constant_of (_gender self)) (_activity_level self)
      ltac:(lia)) as Hn.
    destruct (float_mul _ _) as [s | s | | s m e]; try discriminate;
      cbn [round mbind result_bind]; eauto. }
  destruct Hi as (intake & Hi). exists intake. split; [exact Hi |].
  unfold report. rewrite calculator_eta.
  unfold mbind, IO_bind, lift. rewrite Hi.
  unfold display_calorie_results, jarvis_say, show, after_saying,
    spec_goal_phrase, WEIGHT_LOSS, WEIGHT_GAIN.
  destruct (String.eqb (_gender self) "M" && (intake <? 1500)); [eauto |].
  destruct (String.eqb (_gender self) "F" && (intake <? 1200)); [eauto 6 |].
  destruct (_goal self =? 1); [eauto 6 |].
  destruct (_goal self =? 3); eauto 6.
Qed.

Lemma calc_daily_calorie_intake_returns_witness :
  exists intake : Z,
    calc_daily_calorie_intake (calculator "F" 30 160 50 1 1) = Ok intake /\
    exists text : string,
      report "F" 30 160 50 1 1 (Console [] [])
      = Returns tt (after_saying (Console [] []) text) /\
      (text = caution_male \/ text = caution_female \/
       text = recommendation (spec_goal_phrase 1) intake).
Proof.
  apply (calc_daily_calorie_intake_returns (calculator "F" 30 160 50 1 1)
           (Console [] [])); vm_compute; intuition discriminate.
Defined.

(** X4: with the other five fields the same, the intake for goal 3 is the
    intake for goal 1 plus 1000 and the intake for goal 2 is the intake for
    goal 1 plus 500; whatever is raised for one goal is raised for the
    others. *)
Theorem intake_across_goals (gender : string)
    (age height weight activity_level : Z) :
  calc_daily_calorie_intake (calculator gender age height weight activity_level 3)
  = (lose ← calc_daily_calorie_intake
              (calculator gender age height weight activity_level 1);
     Ok (lose + 1000)) /\
  calc_daily_calorie_intake (calculator gender age height weight activity_level 2)
  = (lose ← calc_daily_calorie_intake
              (calculator gender age height weight activity_level 1);
     Ok (lose + 500)).
Proof.
  unfold calc_daily_calorie_intake.
  change (_calc_rmr (calculator gender age height weight activity_level 3))
    with (_calc_rmr (calculator gender age height weight activity_level 1)).
  change (_calc_rmr (calculator gender age height weight activity_level 2))
    with (_calc_rmr (calculator gender age height weight activity_level 1)).
  destruct (_calc_rmr _) as [rmr | e]; [| split; reflexivity].
  cbn [mbind result_bind].
  change (_calc_tdee (calculator gender age height weight activity_level 3) rmr)
    with (_calc_tdee (calculator gender age height weight activity_level 1) rmr).
  change (_calc_tdee (calculator gender age height weight activity_level 2) rmr)
    with (_calc_tdee (calculator gender age height weight activity_level 1) rmr).
  destruct (_calc_tdee _ rmr) as [tdee | e]; [| split; reflexivity].
  cbn [mbind result_bind]. unfold _calc_daily_calorie_intake. simpl.
  split; f_equal; lia.
Qed.

(** ** How far the TDEE is from the product *)

Lemma round_half_even_sign (s : bool) (m : positive) (e : Z) :
  round_half_even s m e
  = if s then - round_half_even false m e else round_half_even false m e.
Proof. destruct s; reflexivity. Qed.

(** [round] of the product of an exact quarter [z/4] with a 53-bit factor
    [mf * 2^-52]: the int is the product up to a half and a unit of the last
    place. *)
Lemma round_product_close (z : Z) (mf : positive) (n : Z) :
  Z.abs z < 2 ^ 47 -> Z.pos (digits2_pos mf) = 53 ->
  round (VFloat (float_mul (quarter z) (S754_finite false mf (-52)))) = Ok n ->
  Z.abs (n * 2 ^ 54 - z * Z.pos mf) <= 2 ^ 53 + 2 ^ 48.
Proof.
  intros Hz Hmf.
  assert (H47 : 2 ^ 47 = 140737488355328) by reflexivity.
  assert (H48 : 2 ^ 48 = 281474976710656) by reflexivity.
  assert (H53 : 2 ^ 53 = 9007199254740992) by reflexivity.
  assert (H54 : 2 ^ 54 = 18014398509481984) by reflexivity.
  destruct (Z.eq_dec z 0) as [-> | Hnz].
  { simpl. intros [= <-]. simpl. lia. }
  destruct (quarter_finite z Hnz ltac:(lia)) as (m & [Hm He] & Hmv & ->).
  assert (Hl : 0 <= Z.log2 (Z.abs z) <= 46).
  { split; [apply Z.log2_nonneg |].
    assert (Z.log2 (Z.abs z) < 47); [apply Z.log2_lt_pow2; lia | lia]. }
  set (l := Z.log2 (Z.abs z)) in *.
  pose proof (digits2_mul_53 m mf Hm Hmf) as Hd.
  unfold float_mul, SFmul.
  destruct (round_aux_long (xorb (z <? 0) false) (m * mf) (l - 54 + -52))
    as (m' & e' & He' & _ & Hval & ->); try lia.
  destruct (Z.leb_spec e' 971); [| lia].
  cbn [round]. intros [= <-].
  rewrite round_half_even_sign, xorb_false_r.
  pose proof (round_half_even_nearest m' e' ltac:(lia)) as [Hn _].
  cbv zeta in Hn. set (n0 := round_half_even false m' e') in *.
  set (d := Z.pos (digits2_pos (m * mf))) in *.
  (* k bits after the point, j bits dropped, U the scale of the quarter *)
  set (k := - e') in *. set (j := e' - (l - 54 + -52)) in *.
  set (U := 2 ^ (52 - l)) in *.
  assert (HU : 0 < U) by (apply pow2_pos; lia).
  assert (Hk : 0 < 2 ^ k) by (apply pow2_pos; lia).
  assert (Hj : 0 < 2 ^ j) by (apply pow2_pos; lia).
  assert (Hkj : 2 ^ k * 2 ^ j = 2 ^ 54 * U).
  { unfold U. rewrite <- !pow2_add by lia. f_equal. lia. }
  assert (HjU : 2 ^ j <= 2 ^ 48 * U).
  { unfold U. rewrite <- pow2_add by lia. apply Z.pow_le_mono_r; lia. }
  rewrite Pos2Z.inj_mul, Hmv in Hval. fold U in Hval.
  assert (Hcore : U * Z.abs (n0 * 2 ^ 54 - Z.abs z * Z.pos mf)
                  <= U * (2 ^ 53 + 2 ^ 48)).
  { assert (Ha : 2 * Z.abs (Z.pos m' * 2 ^ j - n0 * (2 ^ 54 * U)) <= 2 ^ 54 * U).
    { rewrite <- Hkj.
      replace (Z.pos m' * 2 ^ j - n0 * (2 ^ k * 2 ^ j))
        with ((Z.pos m' - n0 * 2 ^ k) * 2 ^ j) by ring.
      rewrite Z.abs_mul, (Z.abs_eq (2 ^ j)) by lia. nia. }
    replace (U * Z.abs (n0 * 2 ^ 54 - Z.abs z * Z.pos mf))
      with (Z.abs (n0 * (2 ^ 54 * U) - Z.abs z * U * Z.pos mf)).
    2:{ replace (n0 * (2 ^ 54 * U) - Z.abs z * U * Z.pos mf)
          with (U * (n0 * 2 ^ 54 - Z.abs z * Z.pos mf)) by ring.
        rewrite Z.abs_mul, (Z.abs_eq U) by lia. reflexivity. }
    rewrite H54, H53, H48 in *. lia. }
  assert (Hres : Z.abs (n0 * 2 ^ 54 - Z.abs z * Z.pos mf) <= 2 ^ 53 + 2 ^ 48).
  { apply (Z.mul_le_mono_pos_l _ _ U HU). exact Hcore. }
  destruct (Z.ltb_spec z 0).
  - replace (- n0 * 2 ^ 54 - z * Z.pos mf)
      with (- (n0 * 2 ^ 54 - Z.abs z * Z.pos mf)) by lia.
    rewrite Z.abs_opp. exact Hres.
  - replace z with (Z.abs z) at 1 by lia. exact Hres.
Qed.

Lemma activity_factor_decimal (activity_level : Z) :
  1 <= activity_level <= 4 ->
  exists (mf : positive) (num : Z) (den : positive),
    spec_activity_factor activity_level = S754_finite false mf (-52) /\
    Z.pos (digits2_pos mf) = 53 /\
    decimal_factor activity_level = num # den /\
    0 < num <= 2 * Z.pos den /\ Z.pos den <= 1000 /\
    2 * Z.abs (Z.pos den * Z.pos mf - num * 2 ^ 52) <= Z.pos den.
Proof.
  intros H.
  assert (Hl : activity_level = 1 \/ activity_level = 2
               \/ activity_level = 3 \/ activity_level = 4) by lia.
  destruct Hl as [-> | [-> | [-> | ->]]];
    do 3 eexists; repeat split; vm_compute; congruence.
Qed.

Lemma Qabs_diff_le (n z num : Z) (den : positive) (f : Q) :
  (f == z # 4)%Q ->
  16 * Z.abs (4 * Z.pos den * n - z * num) <= 36 * Z.pos den ->
  (Qabs (inject_Z n - f * (num # den)) <= 9 # 16)%Q.
Proof.
  intros Hf H. rewrite Hf. apply Qabs_Qle_condition.
  unfold Qle, Qminus, Qplus, Qopp, Qmult, inject_Z. simpl.
  rewrite ?Pos2Z.inj_mul. lia.
Qed.

(** X5: for an age, a height and a weight of at most [2^40] in absolute value
    and an activity level from 1 to 4, the RMR is the double that stands for
    [10*weight + 6.25*height - 5*age + constant] and the TDEE is the product
    of that number with the decimal factor (1.2, 1.375, 1.55 or 1.725),
    rounded: the two differ by 9/16 at most. *)
Theorem tdee_accuracy (self : CalorieCalculator) :
  Z.abs (_age self) <= 2 ^ 40 -> Z.abs (_height self) <= 2 ^ 40 ->
  Z.abs (_weight self) <= 2 ^ 40 -> 1 <= _activity_level self <= 4 ->
  exists (rmr : float) (tdee : Z),
    _calc_rmr self = Ok (VFloat rmr) /\
    _calc_tdee self (VFloat rmr) = Ok tdee /\
    (SF2Q rmr == inject_Z (10 * _weight self) + (625 # 100) * inject_Z (_height self)
                 - inject_Z (5 * _age self)
                 + inject_Z (gender_constant_of (_gender self)))%Q /\
    (Qabs (inject_Z tdee - SF2Q rmr * decimal_factor (_activity_level self))
     <= 9 # 16)%Q.
Proof.
  intros Ha Hh Hw Hl.
  assert (H40 : 2 ^ 40 = 1099511627776) by reflexivity.
  assert (H45 : 2 ^ 45 = 35184372088832) by reflexivity.
  assert (H47 : 2 ^ 47 = 140737488355328) by reflexivity.
  assert (H48 : 2 ^ 48 = 281474976710656) by reflexivity.
  assert (H52 : 2 ^ 52 = 4503599627370496) by reflexivity.
  assert (H53 : 2 ^ 53 = 9007199254740992) by reflexivity.
  assert (H54 : 2 ^ 54 = 18014398509481984) by reflexivity.
  assert (Hg : Z.abs (gender_constant_of (_gender self)) <= 161).
  { unfold gender_constant_of. destruct (String.eqb _ _); lia. }
  set (z := 40 * _weight self + 25 * _height self - 20 * _age self
            + 4 * gender_constant_of (_gender self)).
  assert (Hz : Z.abs z < 2 ^ 47) by (unfold z; lia).
  destruct (activity_factor_decimal _ Hl)
    as (mf & num & den & Hf & Hmf & Hdec & Hnum & Hden & Hnear).
  assert (Ht : exists tdee, _calc_tdee self (VFloat (quarter z)) = Ok tdee).
  { unfold _calc_tdee. rewrite activity_factors_get by exact Hl.
    cbn [mul mbind result_bind].
    pose proof (quarter_times_factor z (_activity_level self) ltac:(lia)) as Hn.
    destruct (float_mul _ _) as [s | s | | s m e]; try discriminate;
      cbn [round]; eauto. }
  destruct Ht as (tdee & Ht).
  exists (quarter z), tdee.
  split; [apply calc_rmr_exact; lia |]. split; [exact Ht |].
  pose proof (SF2Q_quarter z ltac:(lia)) as Hq.
  split.
  - rewrite Hq. unfold z, Qeq, Qplus, Qminus, Qmult, Qopp, inject_Z. simpl. lia.
  - rewrite Hdec. apply (Qabs_diff_le tdee z num den _ Hq).
    unfold _calc_tdee in Ht. rewrite activity_factors_get, Hf in Ht by exact Hl.
    cbn [mul mbind result_bind] in Ht.
    pose proof (round_product_close z mf tdee Hz Hmf Ht) as Hc.
    (* from the double factor to the decimal one *)
    assert (Hs : 2 ^ 52 * (4 * Z.pos den * tdee - z * num)
                 = Z.pos den * (tdee * 2 ^ 54 - z * Z.pos mf)
                   + z * (Z.pos den * Z.pos mf - num * 2 ^ 52)).
    { rewrite H54, H52. ring. }
    assert (Hb : 2 ^ 52 * Z.abs (4 * Z.pos den * tdee - z * num)
                 <= Z.pos den * (2 ^ 53 + 2 ^ 48) + 2 ^ 47 * Z.pos den).
    { rewrite <- (Z.abs_eq (2 ^ 52)) by lia. rewrite <- Z.abs_mul, Hs.
      eapply Z.le_trans; [apply Z.abs_triangle |].
      rewrite !Z.abs_mul, (Z.abs_eq (Z.pos den)) by lia.
      apply Z.add_le_mono.
      - apply Z.mul_le_mono_nonneg_l; [lia | exact Hc].
      - assert (Z.abs z * (2 * Z.abs (Z.pos den * Z.pos mf - num * 2 ^ 52))
                <= 2 ^ 47 * Z.pos den).
        { apply Z.mul_le_mono_nonneg; lia. }
        lia. }
    rewrite H52, H53, H48, H47 in Hb. lia.
Qed.

Lemma tdee_accuracy_witness :
  exists (rmr : float) (tdee : Z),
    _calc_rmr (calculator "M" 25 180 80 2 2) = Ok (VFloat rmr) /\
    _calc_tdee (calculator "M" 25 180 80 2 2) (VFloat rmr) = Ok tdee /\
    (SF2Q rmr == inject_Z (10 * 80) + (625 # 100) * inject_Z 180
                 - inject_Z (5 * 25) + inject_Z (gender_constant_of "M"))%Q /\
    (Qabs (inject_Z tdee - SF2Q rmr * decimal_factor 2) <= 9 # 16)%Q.
Proof.
  apply (tdee_accuracy (calculator "M" 25 180 80 2 2));
    vm_compute; intuition discriminate.
Defined.

(** ** The collector *)

Lemma upper_ascii_M (c : ascii) :
  upper_ascii c = "M"%char -> c = "M"%char \/ c = "m"%char.
Proof.
  destruct c as [[] [] [] [] [] [] [] []]; vm_compute; intros H;
    try discriminate H; auto.
Qed.

Lemma upper_ascii_F (c : ascii) :
  upper_ascii c = "F"%char -> c = "F"%char \/ c = "f"%char.
Proof.
  destruct c as [[] [] [] [] [] [] [] []]; vm_compute; intros H;
    try discriminate H; auto.
Qed.

Lemma upper_single (s : string) (c : ascii) :
  upper s = String c EmptyString ->
  exists c', s = String c' EmptyString /\ upper_ascii c' = c.
Proof.
  destruct s as [| c' [| c'' s'']]; simpl; try discriminate.
  intros [= H]. eauto.
Qed.

(** X6: [validate_gender] accepts the four lines "M", "m", "F" and "f" and
    no other: no blank around the letter, no word. *)
Theorem validate_gender_accepts (gender : string) :
  validate_gender gender = true <->
  gender = "M" \/ gender = "m" \/ gender = "F" \/ gender = "f".
Proof.
  unfold validate_gender. rewrite orb_true_iff, !String.eqb_eq. split.
  - intros [H | H]; apply upper_single in H as (c & -> & Hc).
    + destruct (upper_ascii_M c Hc) as [-> | ->]; auto.
    + destruct (upper_ascii_F c Hc) as [-> | ->]; auto.
  - intros [-> | [-> | [-> | ->]]]; vm_compute; auto.
Qed.

Lemma validate_gender_accepts_witness :
  validate_gender "f" = true /\
  (" M" = "M" \/ " M" = "m" \/ " M" = "F" \/ " M" = "f" -> False).
Proof.
  split.
  - apply (proj2 (validate_gender_accepts "f")). auto.
  - intros H. apply (proj2 (validate_gender_accepts " M")) in H.
    vm_compute in H. discriminate H.
Defined.

(** X7: [read_gender] takes the first line that [validate_gender] accepts and
    returns it in upper case, "M" or "F"; for each line before it the prompt
    is shown and the error is printed, and the lines after it stay untyped. *)
Theorem read_gender_first_accepted (input_message error_message : string)
    (bad : list string) (good : string) (rest : list string) (log : list event) :
  Forall (fun line => validate_gender line = false) bad ->
  validate_gender good = true ->
  read_gender input_message error_message (Console (bad ++ good :: rest)%list log)
  = Returns (upper good)
      (Console rest (log ++ rejections input_message error_message bad
                         ++ [Asked input_message])%list) /\
  (upper good = "M" \/ upper good = "F").
Proof.
  intros Hbad Hgood. split.
  - unfold read_gender. simpl typed. simpl shown. revert log.
    induction Hbad as [| line bad Hline _ IH]; intros log; simpl.
    + rewrite Hgood. reflexivity.
    + rewrite Hline, IH. rewrite <- !app_assoc. reflexivity.
  - unfold validate_gender in Hgood.
    apply orb_true_iff in Hgood. rewrite !String.eqb_eq in Hgood. exact Hgood.
Qed.

Lemma read_gender_first_accepted_witness :
  read_gender "Gender (M/F): " "again" (Console ["x"; "male"; "f"; "25"] [])
  = Returns (upper "f")
      (Console ["25"] ([] ++ rejections "Gender (M/F): " "again" ["x"; "male"]
                          ++ [Asked "Gender (M/F): "])%list) /\
  (upper "f" = "M" \/ upper "f" = "F").
Proof.
  apply (read_gender_first_accepted "Gender (M/F): " "again"
           ["x"; "male"] "f" ["25"] []).
  - repeat constructor.
  - reflexivity.
Defined.

(** X8: [read_input] takes the first line that [validate_input] accepts and
    returns its int; for each line before it the prompt is shown and the
    error is printed, and the lines after it stay untyped. *)
Theorem read_input_first_accepted (input_message : string)
    (bool_expression : Z -> bool) (error_message : string)
    (bad : list string) (good : string) (n : Z) (rest : list string)
    (log : list event) :
  Forall (fun line => validate_input line bool_expression = Ok false) bad ->
  int good = Ok n -> bool_expression n = false ->
  read_input input_message bool_expression error_message
    (Console (bad ++ good :: rest)%list log)
  = Returns n
      (Console rest (log ++ rejections input_message error_message bad
                         ++ [Asked input_message])%list).
Proof.
  intros Hbad Hn Hb.
  unfold read_input. simpl typed. simpl shown. revert log.
  induction Hbad as [| line bad Hline _ IH]; intros log; simpl.
  - rewrite validate_input_eq. unfold int in *.
    destruct (parse_int good) as [k |]; [| discriminate].
    injection Hn as ->. rewrite Hb. reflexivity.
  - rewrite Hline, IH. rewrite <- !app_assoc. reflexivity.
Qed.

Lemma read_input_first_accepted_witness :
  read_input "Age: " age_out_of_range "again" (Console ["x"; "10"; "25"; "180"] [])
  = Returns 25
      (Console ["180"] ([] ++ rejections "Age: " "again" ["x"; "10"]
                           ++ [Asked "Age: "])%list).
Proof.
  apply (read_input_first_accepted "Age: " age_out_of_range "again"
           ["x"; "10"] "25" 25 ["180"] []).
  - repeat constructor.
  - reflexivity.
  - reflexivity.
Defined.

(** X9: there is no limit to the retries: as long as no line is accepted,
    [read_gender] and [read_input] neither return nor raise; every line is
    used up, with one error printed for each, and the prompt is shown
    again. *)
Theorem read_loops_wait (input_message error_message : string)
    (bool_expression : Z -> bool) (lines : list string) (log : list event) :
  (Forall (fun line => validate_gender line = false) lines ->
   read_gender input_message error_message (Console lines log)
   = Awaits (Console [] (log ++ rejections input_message error_message lines
                             ++ [Asked input_message])%list)) /\
  (Forall (fun line => validate_input line bool_expression = Ok false) lines ->
   read_input input_message bool_expression error_message (Console lines log)
   = Awaits (Console [] (log ++ rejections input_message error_message lines
                             ++ [Asked input_message])%list)).
Proof.
  split; intros Hbad.
  - unfold read_gender. simpl typed. simpl shown. revert log.
    induction Hbad as [| line bad Hline _ IH]; intros log; simpl.
    + reflexivity.
    + rewrite Hline, IH. rewrite <- !app_assoc. reflexivity.
  - unfold read_input. simpl typed. simpl shown. revert log.
    induction Hbad as [| line bad Hline _ IH]; intros log; simpl.
    + reflexivity.
    + rewrite Hline, IH. rewrite <- !app_assoc. reflexivity.
Qed.

Lemma read_loops_wait_witness :
  read_gender "Gender (M/F): " "again" (Console ["x"; "male"] [])
  = Awaits (Console [] ([] ++ rejections "Gender (M/F): " "again" ["x"; "male"]
                           ++ [Asked "Gender (M/F): "])%list) /\
  read_input "Age: " age_out_of_range "again" (Console ["x"; "13"] [])
  = Awaits (Console [] ([] ++ rejections "Age: " "again" ["x"; "13"]
                           ++ [Asked "Age: "])%list).
Proof.
  split.
  - apply (proj1 (read_loops_wait "Gender (M/F): " "again" age_out_of_range
                    ["x"; "male"] [])). repeat constructor.
  - apply (proj2 (read_loops_wait "Age: " "again" age_out_of_range
                    ["x"; "13"] [])). repeat constructor.
Defined.

(** ** [__call__] as a whole *)

Lemma IO_bind_returns {A B} (m : IO A) (k : A -> IO B) (c c' : console) (a : A) :
  m c = Returns a c' -> (m ≫= k) c = k a c'.
Proof. intros H. unfold mbind, IO_bind. rewrite H. reflexivity. Qed.

Lemma IO_bind_inv_returns {A B} (m : IO A) (k : A -> IO B) (c c' : console) (b : B) :
  (m ≫= k) c = Returns b c' ->
  exists a c1, m c = Returns a c1 /\ k a c1 = Returns b c'.
Proof.
  unfold mbind, IO_bind. destruct (m c) as [a c1 | e c1 | c1]; try discriminate.
  eauto.
Qed.

Lemma IO_bind_inv_fails {A B} (m : IO A) (k : A -> IO B) (c c' : console) (e : exn) :
  (m ≫= k) c = Fails e c' ->
  m c = Fails e c' \/ exists a c1, m c = Returns a c1 /\ k a c1 = Fails e c'.
Proof.
  unfold mbind, IO_bind. destruct (m c) as [a c1 | e1 c1 | c1]; try discriminate.
  - intros H. right. exists a, c1. split; [reflexivity | exact H].
  - intros [= -> ->]. left. reflexivity.
Qed.

Lemma read_gender_loop_never_fails (input_message error_message : string)
    (lines : list string) : forall (log : list event) (e : exn) (c : console),
  read_gender_loop input_message error_message lines log <> Fails e c.
Proof.
  induction lines as [| line rest IH]; intros log e c; simpl; [discriminate |].
  destruct (validate_gender line); [discriminate | apply IH].
Qed.

Lemma show_returns (ev : event) (c : console) :
  show ev c = Returns tt (Console (typed c) (shown c ++ [ev])%list).
Proof. reflexivity. Qed.

Lemma display_activity_levels_returns (c : console) :
  exists c', display_activity_levels c = Returns tt c'.
Proof. eexists. reflexivity. Qed.

Lemma display_goals_returns (c : console) :
  exists c', display_goals c = Returns tt c'.
Proof. eexists. reflexivity. Qed.

Lemma display_calorie_results_returns (self : CalorieCalculator)
    (cal_intake : Z) (c : console) :
  exists text, display_calorie_results self cal_intake c
               = Returns tt (after_saying c text).
Proof.
  unfold display_calorie_results.
  destruct (_ && _); [eexists; reflexivity |].
  destruct (_ && _); [eexists; reflexivity |].
  destruct (_ =? _); [eexists; reflexivity |].
  destruct (_ =? _); eexists; reflexivity.
Qed.

Lemma calc_daily_outcome (self : CalorieCalculator) :
  1 <= _activity_level self <= 4 ->
  (exists n, calc_daily_calorie_intake self = Ok n) \/
  calc_daily_calorie_intake self = Raise OverflowError.
Proof.
  intros Hl. unfold calc_daily_calorie_intake.
  destruct (calc_rmr_outcome self) as [(f & -> & Hf) | ->];
    cbn [mbind result_bind]; [| right; reflexivity].
  destruct (calc_tdee_outcome self f Hl Hf) as [(n & ->) | ->];
    cbn [mbind result_bind]; [left; eauto | right; reflexivity].
Qed.

(** What [__call__] has read when it reaches its last three statements:
    a property of every outcome of waiting for the user, and of every
    outcome of [report] on accepted fields, is a property of the outcome of
    the conversation. *)
Lemma call_cases (P : outcome unit -> Prop) (lines : list string) :
  (forall c, P (Awaits c)) ->
  (forall gender age height weight activity_level goal c0,
     gender = "M" \/ gender = "F" -> 14 <= age -> 0 < height -> 0 < weight ->
     1 <= activity_level <= 4 -> 1 <= goal <= 3 ->
     P (report gender age height weight activity_level goal c0)) ->
  P (run lines).
Proof.
  intros HA HR. unfold run, __call__.
  rewrite (IO_bind_returns display_welcome_message _ _ _ tt
             (show_returns _ (Console lines []))).
  set (k1 := fun gender : string => _).
  unfold mbind at 1, IO_bind at 1, read_gender. simpl typed. simpl shown.
  destruct (read_gender_loop _ _ lines _) as [gender c1 | e c1 | c1] eqn:Hg;
    [| exfalso; exact (read_gender_loop_never_fails _ _ _ _ _ _ Hg) | apply HA].
  apply read_gender_loop_returns in Hg. unfold k1. clear k1.
  set (k2 := fun age : Z => _).
  unfold mbind at 1, IO_bind at 1, read_input.
  destruct (read_input_loop _ _ _ (typed c1) _) as [age c2 | e c2 | c2] eqn:Ha;
    [| exfalso; exact (read_input_loop_never_fails _ _ _ _ _ _ _ Ha) | apply HA].
  apply read_input_loop_returns in Ha as [Ha _]. unfold k2. clear k2.
  set (k3 := fun height : Z => _).
  unfold mbind at 1, IO_bind at 1, read_input.
  destruct (read_input_loop _ _ _ (typed c2) _) as [height c3 | e c3 | c3] eqn:Hh;
    [| exfalso; exact (read_input_loop_never_fails _ _ _ _ _ _ _ Hh) | apply HA].
  apply read_input_loop_returns in Hh as [Hh _]. unfold k3. clear k3.
  set (k4 := fun weight : Z => _).
  unfold mbind at 1, IO_bind at 1, read_input.
  destruct (read_input_loop _ _ _ (typed c3) _) as [weight c4 | e c4 | c4] eqn:Hw;
    [| exfalso; exact (read_input_loop_never_fails _ _ _ _ _ _ _ Hw) | apply HA].
  apply read_input_loop_returns in Hw as [Hw _]. unfold k4. clear k4.
  destruct (display_activity_levels_returns c4) as (c5 & Hc5).
  rewrite (IO_bind_returns _ _ _ _ tt Hc5).
  set (k6 := fun activity_level : Z => _).
  unfold mbind at 1, IO_bind at 1, read_input.
  destruct (read_input_loop _ _ _ (typed c5) _) as [level c6 | e c6 | c6] eqn:Hl;
    [| exfalso; exact (read_input_loop_never_fails _ _ _ _ _ _ _ Hl) | apply HA].
  apply read_input_loop_returns in Hl as [Hl _]. unfold k6. clear k6.
  destruct (display_goals_returns c6) as (c7 & Hc7).
  rewrite (IO_bind_returns _ _ _ _ tt Hc7).
  unfold mbind at 1, IO_bind at 1, read_input.
  destruct (read_input_loop _ _ _ (typed c7) _) as [goal c8 | e c8 | c8] eqn:Ho;
    [| exfalso; exact (read_input_loop_never_fails _ _ _ _ _ _ _ Ho) | apply HA].
  apply read_input_loop_returns in Ho as [Ho _].
  unfold age_out_of_range, height_out_of_range, weight_out_of_range,
    activity_level_out_of_range, goal_out_of_range in *.
  apply Z.ltb_ge in Ha. apply Z.leb_gt in Hh. apply Z.leb_gt in Hw.
  apply negb_false_iff, andb_true_iff in Hl. rewrite !Z.leb_le in Hl.
  apply negb_false_iff, andb_true_iff in Ho. rewrite !Z.leb_le in Ho.
  apply HR; assumption || lia.
Qed.

(** X10: when the conversation ends, the calculator was built from accepted
    fields (gender "M" or "F", age of 14 or more, height and weight above 0,
    activity level 1..4, goal 1..3), the intake was computed from them, and
    the last thing done was to display it: one text. *)
Theorem call_returns_validated (lines : list string) (c : console) :
  run lines = Returns tt c ->
  exists gender age height weight activity_level goal intake c0 text,
    (gender = "M" \/ gender = "F") /\ 14 <= age /\ 0 < height /\ 0 < weight /\
    1 <= activity_level <= 4 /\ 1 <= goal <= 3 /\
    calc_daily_calorie_intake
      (calculator gender age height weight activity_level goal) = Ok intake /\
    display_calorie_results
      (calculator gender age height weight activity_level goal) intake c0
    = Returns tt c /\
    c = after_saying c0 text.
Proof.
  apply (call_cases (fun o => o = Returns tt c -> _)); [discriminate |].
  intros gender age height weight level goal c0 Hg Ha Hh Hw Hl Ho Hr.
  unfold report in Hr.
  apply IO_bind_inv_returns in Hr as (intake & c1 & Hi & Hd).
  unfold lift in Hi.
  destruct (calc_daily_calorie_intake _) as [n | e] eqn:Hc; [| discriminate].
  injection Hi as <- <-.
  destruct (display_calorie_results_returns
              (calculator gender age height weight level goal) n c0)
    as (text & Ht).
  exists gender, age, height, weight, level, goal, n, c0, text.
  repeat split; try assumption; try lia. congruence.
Qed.

Lemma call_returns_validated_witness :
  exists gender age height weight activity_level goal intake c0 text,
    (gender = "M" \/ gender = "F") /\ 14 <= age /\ 0 < height /\ 0 < weight /\
    1 <= activity_level <= 4 /\ 1 <= goal <= 3 /\
    calc_daily_calorie_intake
      (calculator gender age height weight activity_level goal) = Ok intake /\
    display_calorie_results
      (calculator gender age height weight activity_level goal) intake c0
    = Returns tt (after_saying (Console []
        [Said (yellow (nl ++ "Hello! In order to calculate your daily calorie intake "
                       ++ "i will need some information about you. Lets start..."));
         Asked "Gender (M/F): "; Asked "Age: "; Asked "Height (cm): ";
         Asked "Weight (kg): ";
         Said (yellow (nl ++ "Activity levels:"));
         Said (yellow "[1]" ++ " Little or no exercise");
         Said (yellow "[2]" ++ " Light exercise 1-3 days a week");
         Said (yellow "[3]" ++ " Moderate exercise 4-5 days a week");
         Said (yellow "[4]" ++ " Hard exercise every day" ++ nl);
         Asked "Choose your activity level (1-4): ";
         Said (yellow (nl ++ "Goals:"));
         Said (yellow "[1]" ++ " Lose weight");
         Said (yellow "[2]" ++ " Maintain weight");
         Said (yellow "[3]" ++ " Gain weight" ++ nl);
         Asked "Choose your goal (1-3): "])
        (recommendation phrase_maintain 2482)) /\
    after_saying (Console []
        [Said (yellow (nl ++ "Hello! In order to calculate your daily calorie intake "
                       ++ "i will need some information about you. Lets start..."));
         Asked "Gender (M/F): "; Asked "Age: "; Asked "Height (cm): ";
         Asked "Weight (kg): ";
         Said (yellow (nl ++ "Activity levels:"));
         Said (yellow "[1]" ++ " Little or no exercise");
         Said (yellow "[2]" ++ " Light exercise 1-3 days a week");
         Said (yellow "[3]" ++ " Moderate exercise 4-5 days a week");
         Said (yellow "[4]" ++ " Hard exercise every day" ++ nl);
         Asked "Choose your activity level (1-4): ";
         Said (yellow (nl ++ "Goals:"));
         Said (yellow "[1]" ++ " Lose weight");
         Said (yellow "[2]" ++ " Maintain weight");
         Said (yellow "[3]" ++ " Gain weight" ++ nl);
         Asked "Choose your goal (1-3): "])
        (recommendation phrase_maintain 2482)
    = after_saying c0 text.
Proof.
  apply (call_returns_validated ["m"; "25"; "180"; "80"; "2"; "2"]).
  vm_compute. reflexivity.
Defined.

(** X11: the only exception that leaves [__call__] is [OverflowError]: no
    [ValueError] or [ValueOutOfRangeError] of the validation and no
    [TypeError] of the lookup gets out. *)
Theorem call_fails_only_overflow (lines : list string) (e : exn) (c : console) :
  run lines = Fails e c -> e = OverflowError.
Proof.
  apply (call_cases (fun o => o = Fails e c -> _)); [discriminate |].
  intros gender age height weight level goal c0 Hg Ha Hh Hw Hl Ho Hr.
  unfold report in Hr.
  apply IO_bind_inv_fails in Hr as [Hr | (intake & c1 & Hi & Hd)].
  - unfold lift in Hr.
    destruct (calc_daily_outcome
                (calculator gender age height weight level goal) Hl)
      as [(n & Hn) | Hn]; rewrite Hn in Hr; [discriminate |].
    injection Hr as <- _. reflexivity.
  - destruct (display_calorie_results_returns
                (calculator gender age height weight level goal) intake c1)
      as (text & Ht).
    rewrite Ht in Hd. discriminate.
Qed.

Lemma call_fails_only_overflow_witness :
  exists c : console,
    run ["m"; "25"; "1" ++ string_of_list_ascii (repeat "0"%char 400);
         "80"; "2"; "2"] = Fails OverflowError c /\
    OverflowError = OverflowError.
Proof.
  eexists. split; [vm_compute; reflexivity |].
  eapply (call_fails_only_overflow
            ["m"; "25"; "1" ++ string_of_list_ascii (repeat "0"%char 400);
             "80"; "2"; "2"] OverflowError).
  vm_compute. reflexivity.
Defined.

Lemma read_gender_accepts (input_message error_message gender : string)
    (rest : list string) (log : list event) :
  validate_gender gender = true ->
  read_gender input_message error_message (Console (gender :: rest) log)
  = Returns (upper gender) (Console rest (log ++ [Asked input_message])%list).
Proof. intros H. unfold read_gender. simpl. rewrite H. reflexivity. Qed.

Lemma read_input_accepts (input_message : string) (bool_expression : Z -> bool)
    (error_message input : string) (n : Z) (rest : list string)
    (log : list event) :
  int input = Ok n -> bool_expression n = false ->
  read_input input_message bool_expression error_message
    (Console (input :: rest) log)
  = Returns n (Console rest (log ++ [Asked input_message])%list).
Proof.
  intros Hn Hb. unfold read_input. simpl. rewrite validate_input_eq.
  unfold int in *. destruct (parse_int input) as [k |]; [| discriminate].
  injection Hn as ->. rewrite Hb. reflexivity.
Qed.

(** X12: six accepted lines are one conversation: the prompts come in the order
    gender, age, height, weight, activity level, goal, no error is printed,
    the lines typed after them are left alone, and the calculator gets the
    six values in that order, the gender in upper case. *)
Theorem call_six_accepted (gender age height weight activity_level goal : string)
    (n_age n_height n_weight n_level n_goal : Z) (rest : list string) :
  validate_gender gender = true ->
  int age = Ok n_age -> age_out_of_range n_age = false ->
  int height = Ok n_height -> height_out_of_range n_height = false ->
  int weight = Ok n_weight -> weight_out_of_range n_weight = false ->
  int activity_level = Ok n_level ->
  activity_level_out_of_range n_level = false ->
  int goal = Ok n_goal -> goal_out_of_range n_goal = false ->
  exists log : list event,
    run (gender :: age :: height :: weight :: activity_level :: goal :: rest)
    = report (upper gender) n_age n_height n_weight n_level n_goal
        (Console rest log) /\
    prompts log = ["Gender (M/F): "; "Age: "; "Height (cm): "; "Weight (kg): ";
                   "Choose your activity level (1-4): ";
                   "Choose your goal (1-3): "] /\
    errors log = [].
Proof.
  intros Hg Ha Ha' Hh Hh' Hw Hw' Hl Hl' Ho Ho'.
  eexists. split.
  - unfold run, __call__.
    rewrite (IO_bind_returns display_welcome_message _ _ _ tt (show_returns _ _)).
    erewrite IO_bind_returns by (apply read_gender_accepts; exact Hg).
    erewrite IO_bind_returns by (apply read_input_accepts; eassumption).
    erewrite IO_bind_returns by (apply read_input_accepts; eassumption).
    erewrite IO_bind_returns by (apply read_input_accepts; eassumption).
    erewrite (IO_bind_returns display_activity_levels) by reflexivity.
    erewrite IO_bind_returns by (apply read_input_accepts; eassumption).
    erewrite (IO_bind_returns display_goals) by reflexivity.
    erewrite IO_bind_returns by (apply read_input_accepts; eassumption).
    reflexivity.
  - split; reflexivity.
Qed.

Lemma call_six_accepted_witness :
  exists log : list event,
    run ["f"; "30"; "160"; "50"; "1"; "1"; "more"]
    = report (upper "f") 30 160 50 1 1 (Console ["more"] log) /\
    prompts log = ["Gender (M/F): "; "Age: "; "Height (cm): "; "Weight (kg): ";
                   "Choose your activity level (1-4): ";
                   "Choose your goal (1-3): "] /\
    errors log = [].
Proof.
  apply (call_six_accepted "f" "30" "160" "50" "1" "1" 30 160 50 1 1 ["more"]);
    reflexivity.
Defined.

